(** * diffoscope comparison core: a shallow embedding of
    [diffoscope/comparators/binary.py] and [diffoscope/comparators/directory.py].

    Python exceptions are modelled by the error monad [res]; the external
    tools (cmp, xxd, stat, lsattr, getfacl) and the collaborators outside
    the two modules ([Difference], [Container], [compare_files]) are
    section variables, so every theorem holds for all of their behaviours
    unless a hypothesis says otherwise. *)

From Stdlib Require Import String Ascii List ZArith Bool Lia.
From Stdlib Require Import Sorting.Sorted Sorting.Permutation Sorting.Mergesort.
From Stdlib Require Import Structures.Orders.
From Stdlib Require Import DecimalString.
Import ListNotations.
Open Scope string_scope.
#[local] Set Warnings "-register-all".

(** ** Exceptions *)

(** The exceptions the comparison code distinguishes:
    [RequiredToolNotFound] (raised by [tool_required]),
    [subprocess.CalledProcessError] (a tool exited non-zero; [output] is the
    captured bytes, [b''] or [None] both being the empty list) and any
    other exception. *)
Inductive exn :=
| RequiredToolNotFound (command : string)
| CalledProcessError (cmd : list string) (returncode : Z) (output : list Byte.byte)
| OtherException (what : string).

(** A computation that returns a value or raises. *)
Inductive res (A : Type) : Type :=
| Ok (a : A)
| Raise (e : exn).
Arguments Ok {A} a.
Arguments Raise {A} e.

Definition bind {A B} (m : res A) (k : A -> res B) : res B :=
  match m with
  | Ok a => k a
  | Raise e => Raise e
  end.

Notation "x <- m ;; k" := (bind m (fun x => k))
  (at level 61, m at next level, right associativity).

Definition res_map {A B} (f : A -> B) (m : res A) : res B :=
  match m with
  | Ok a => Ok (f a)
  | Raise e => Raise e
  end.

Fixpoint filter_some {A} (l : list (option A)) : list A :=
  match l with
  | [] => []
  | Some x :: l' => x :: filter_some l'
  | None :: l' => filter_some l'
  end.

(** ** The difference tree ([diffoscope.difference.Difference]) *)

(** Modelled from the spec: [Difference] lives in [diffoscope/difference.py],
    not in the sources; a node holds an optional unified diff, two labels,
    ordered comments and ordered child nodes. *)
Inductive difference :=
| Difference_ (unified_diff : option string) (source1 source2 : string)
    (comments : list string) (details : list difference).

Definition unified_diff (d : difference) :=
  match d with Difference_ u _ _ _ _ => u end.
Definition source1 (d : difference) :=
  match d with Difference_ _ s _ _ _ => s end.
Definition source2 (d : difference) :=
  match d with Difference_ _ _ s _ _ => s end.
Definition comments (d : difference) :=
  match d with Difference_ _ _ _ c _ => c end.
Definition details (d : difference) :=
  match d with Difference_ _ _ _ _ ds => ds end.

(** Modelled from the spec: [Difference(unified_diff, path1, path2,
    source=source, comment=comment)]; a [source] label, when given,
    labels both sides. *)
Definition new_difference (ud : option string) (path1 path2 : string)
    (source : option string) (comment : list string) : difference :=
  match source with
  | Some s => Difference_ ud s s comment []
  | None => Difference_ ud path1 path2 comment []
  end.

(** Modelled from the spec: [add_comment] appends to the comments. *)
Definition add_comment (d : difference) (c : string) : difference :=
  match d with Difference_ u s1 s2 cs ds => Difference_ u s1 s2 (cs ++ [c]) ds end.

(** Modelled from the spec: [add_details] appends to the children. *)
Definition add_details (d : difference) (l : list difference) : difference :=
  match d with Difference_ u s1 s2 cs ds => Difference_ u s1 s2 cs (ds ++ l) end.

Section Reverse.
(** How the textual payload is reversed is left open. *)
Variable reverse_unified_diff : string -> string.

(** Modelled from the spec: [Difference.get_reverse] swaps [source1] and
    [source2] and reverses every descendant the same way, keeping the
    order of the children. *)
Fixpoint get_reverse (d : difference) : difference :=
  match d with
  | Difference_ u s1 s2 cs ds =>
      Difference_ (option_map reverse_unified_diff u) s2 s1 cs (map get_reverse ds)
  end.
End Reverse.

(** ** Formatting helpers used by [File.compare] *)

(** [re.sub(r'^', '    ', s, flags=re.MULTILINE)]: four spaces at the start
    of the string and after every newline (also after a final one). *)
Fixpoint indent_after_newlines (s : string) : string :=
  match s with
  | EmptyString => EmptyString
  | String c s' =>
      if Ascii.eqb c "010"%char
      then String c ("    " ++ indent_after_newlines s')
      else String c (indent_after_newlines s')
  end.

Definition indent (s : string) : string := "    " ++ indent_after_newlines s.

(** Python's ['%d' % n]. *)
Definition string_of_Z (z : Z) : string := NilEmpty.string_of_int (Z.to_int z).

(** [' '.join(l)] *)
Fixpoint join_space (l : list string) : string :=
  match l with
  | [] => ""
  | [x] => x
  | x :: l' => x ++ " " ++ join_space l'
  end.

(** ** Entities ([File], [FilesystemFile], [NonExistingFile]) *)

(** An object of a concrete [File] subclass: its [name], its [path] and
    its class (which decides [compare_details], [CONTAINER_CLASS] and an
    overridden [compare]). *)
Record real_file := RealFile {
  file_name : string;
  file_path : string;
  file_class : string
}.

(** One side of a comparison: an existing file, or a [NonExistingFile]
    with its name and its optional [_other_file]. *)
Inductive entity :=
| Real (f : real_file)
| NonExistingFile (name : string) (other_file : option real_file).

(** [File.name] *)
Definition entity_name (e : entity) : string :=
  match e with
  | Real f => file_name f
  | NonExistingFile n _ => n
  end.

(** [File.path]; [NonExistingFile.path] is ['/dev/null']. *)
Definition entity_path (e : entity) : string :=
  match e with
  | Real f => file_path f
  | NonExistingFile _ _ => "/dev/null"
  end.

(** The collaborators of [binary.py]: per-class capabilities of the
    decoders, the filesystem and the external tools. *)
Record binary_env := BinaryEnv {
  (** [hasattr(self, 'compare_details')] *)
  has_compare_details : real_file -> bool;
  (** [bool(self.as_container)] *)
  as_container_nonnull : real_file -> bool;
  (** [self.compare_details(other, source)] *)
  compare_details : real_file -> entity -> option string -> res (list (option difference));
  (** [self.as_container.compare(other.as_container)] *)
  container_compare : real_file -> entity -> res (list (option difference));
  (** whether the class overrides [compare], and its override *)
  overrides_compare : real_file -> bool;
  class_compare : real_file -> entity -> option string -> res (option difference);
  (** the bytes stored at a path *)
  read_file : string -> list Byte.byte;
  (** [Difference.from_command(Xxd, path1, path2, source=[name1, name2])] *)
  xxd_from_command : string -> string -> string -> string -> res (option difference);
  (** the unified diff of two texts computed by [Difference.from_text] *)
  diff_texts : string -> string -> res (option string);
  (** [RequiredToolNotFound.get_package()] *)
  get_package : string -> option string;
  (** [bytes.decode('utf-8', errors='replace')] *)
  decode_utf8_replace : list Byte.byte -> string;
  (** whether a tool is found in [PATH] *)
  tool_available : string -> bool;
  (** exit status of [cmp -s path1 path2] *)
  cmp_exit : string -> string -> Z;
  (** how a unified diff is reversed by [get_reverse] *)
  reverse_unified_diff : string -> string
}.

(** ** Hex dump fallback *)

Definition hex_digit (n : nat) : ascii :=
  match n with
  | 0 => "0" | 1 => "1" | 2 => "2" | 3 => "3" | 4 => "4" | 5 => "5"
  | 6 => "6" | 7 => "7" | 8 => "8" | 9 => "9" | 10 => "a" | 11 => "b"
  | 12 => "c" | 13 => "d" | 14 => "e" | _ => "f"
  end%char.

(** [hexlify] of one byte: two lower-case hex digits. *)
Definition hexlify_byte (b : Byte.byte) : string :=
  let n := Byte.to_nat b in
  String (hex_digit (n / 16)) (String (hex_digit (n mod 16)) EmptyString).

Fixpoint hexlify (l : list Byte.byte) : string :=
  match l with
  | [] => ""
  | b :: l' => hexlify_byte b ++ hexlify l'
  end.

(** The loop [for buf in iter(lambda: f.read(32), b'')]: one line of hex
    per 32-byte block; [fuel] bounds the number of blocks. *)
Fixpoint hexdump_lines (fuel : nat) (l : list Byte.byte) : string :=
  match fuel with
  | 0 => ""
  | S fuel' =>
      match l with
      | [] => ""
      | _ => hexlify (firstn 32 l) ++ String "010" (hexdump_lines fuel' (skipn 32 l))
      end
  end.

Section Binary.
Variable env : binary_env.

(** [hexdump_fallback(path)] *)
Definition hexdump_fallback (path : string) : string :=
  let data := read_file env path in
  hexdump_lines (length data) data.

(** Modelled from the spec: [Difference.from_text(text1, text2, path1,
    path2, source, comment)] is absent when the diff is empty. *)
Definition from_text (t1 t2 path1 path2 : string) (source : option string)
    (comment : list string) : res (option difference) :=
  u <- diff_texts env t1 t2 ;;
  Ok (option_map (fun u => new_difference (Some u) path1 path2 source comment) u).

(** [compare_binary_files(file1, file2, source)] *)
Definition compare_binary_files (file1 : real_file) (file2 : entity)
    (source : option string) : res (option difference) :=
  match xxd_from_command env (file_path file1) (entity_path file2)
          (file_name file1) (entity_name file2) with
  | Raise (RequiredToolNotFound _) =>
      from_text (hexdump_fallback (file_path file1))
        (hexdump_fallback (entity_path file2))
        (file_name file1) (entity_name file2) source
        ["xxd not available in path. Falling back to Python hexlify." ++ String "010" ""]
  | r => r
  end.

(** [File.compare_bytes] *)
Definition compare_bytes (self : real_file) (other : entity) (source : option string) :=
  compare_binary_files self other source.

(** [File._compare_using_details] *)
Definition compare_using_details (self : real_file) (other : entity)
    (source : option string) : res (option difference) :=
  d1 <- (if has_compare_details env self
         then res_map filter_some (compare_details env self other source)
         else Ok []) ;;
  d2 <- (if as_container_nonnull env self
         then res_map filter_some (container_compare env self other)
         else Ok []) ;;
  match (d1 ++ d2)%list with
  | [] => Ok None
  | ds => Ok (Some (add_details
                      (new_difference None (file_name self) (entity_name other) source [])
                      ds))
  end.

Definition no_differences_inside_comment : string :=
  "No differences found inside, yet data differs".

(** The comment of the [CalledProcessError] handler. *)
Definition tool_failure_comment (cmd : list string) (returncode : Z)
    (output : list Byte.byte) : string :=
  let out := match output with
             | [] => "<none>"
             | _ => indent (decode_utf8_replace env output)
             end in
  "Command `" ++ join_space cmd ++ "` exited with " ++ string_of_Z returncode
    ++ ". Output:" ++ String "010" out.

(** The comments of the [RequiredToolNotFound] handler. *)
Definition tool_missing_comments (command : string) : list string :=
  ("'" ++ command ++ "' not available in path. Falling back to binary comparison.")
    :: match get_package env command with
       | Some p => if String.eqb p "" then []
                   else ["Install '" ++ p ++ "' to get a better output."]
       | None => []
       end.

(** The body of the [try] block of [File.compare]. *)
Definition compare_try_body (self : real_file) (other : entity)
    (source : option string) : res (option difference) :=
  d <- compare_using_details self other source ;;
  match d with
  | Some d => Ok (Some d)
  | None =>
      b <- compare_bytes self other source ;;
      match b with
      | None => Ok None
      | Some b => Ok (Some (add_comment b no_differences_inside_comment))
      end
  end.

(** [File.compare] *)
Definition file_compare (self : real_file) (other : entity)
    (source : option string) : res (option difference) :=
  if has_compare_details env self || as_container_nonnull env self then
    match compare_try_body self other source with
    | Ok r => Ok r
    | Raise (CalledProcessError cmd rc out) =>
        b <- compare_bytes self other source ;;
        match b with
        | None => Ok None
        | Some b => Ok (Some (add_comment b (tool_failure_comment cmd rc out)))
        end
    | Raise (RequiredToolNotFound command) =>
        b <- compare_bytes self other source ;;
        match b with
        | None => Ok None
        | Some b => Ok (Some (fold_left add_comment (tool_missing_comments command) b))
        end
    | Raise e => Raise e
    end
  else compare_bytes self other source.

(** Dispatch of [entity.compare(other, source)]: a class either keeps
    [File.compare] or overrides it; [NonExistingFile.compare] compares
    backward and reverses. *)
Definition compare (self other : entity) (source : option string)
    : res (option difference) :=
  let real_compare f o s :=
    if overrides_compare env f then class_compare env f o s else file_compare f o s in
  match self with
  | Real f => real_compare f other source
  | NonExistingFile n _ =>
      match other with
      | NonExistingFile n2 _ =>
          Ok (Some (new_difference None n n2 None
                      ["Trying to compare two non-existing files."]))
      | Real g =>
          backward <- real_compare g self source ;;
          match backward with
          | None => Ok None
          | Some b => Ok (Some (get_reverse (reverse_unified_diff env) b))
          end
      end
  end.

(** Modelled from the spec: the decorator [tool_required(command)] of
    [diffoscope/__init__.py]; when [command] is not installed the
    decorated function raises [RequiredToolNotFound(command)] and runs
    nothing. The second component lists the commands a call runs. *)
Definition tool_required {A} (command : string)
    (f : unit -> res A * list (list string)) : res A * list (list string) :=
  if tool_available env command then f tt
  else (Raise (RequiredToolNotFound command), []).

Definition SMALL_FILE_THRESHOLD : N := 65536.

(** [os.path.getsize(path)] *)
Definition getsize (path : string) : N := N.of_nat (length (read_file env path)).

(** [open(path, 'rb').read() == open(path', 'rb').read()] *)
Definition bytes_eqb (a b : list Byte.byte) : bool :=
  if list_eq_dec Byte.byte_eq_dec a b then true else false.

(** [File.has_same_content_as], decorated with [@tool_required('cmp')]. *)
Definition has_same_content_as (self : real_file) (other : entity)
    : res bool * list (list string) :=
  tool_required "cmp" (fun _ =>
    let my_size := getsize (file_path self) in
    let other_size := getsize (entity_path other) in
    if N.eqb my_size other_size && N.leb my_size SMALL_FILE_THRESHOLD
       && bytes_eqb (read_file env (file_path self)) (read_file env (entity_path other))
    then (Ok true, [])
    else (Ok (Z.eqb 0 (cmp_exit env (file_path self) (entity_path other))),
          [["cmp"; "-s"; file_path self; entity_path other]])).
End Binary.

(** ** The cached container view ([File.as_container], [File.cleanup]) *)

(** A container object: a fresh object identity, its class and its
    [source] entity. *)
Record container := Container {
  container_id : nat;
  container_class : string;
  container_source : entity
}.

(** The mutable part of one entity: its [_as_container] attribute (absent
    or set), and the allocator of object identities. *)
Record file_state := FileState {
  cached_container : option container;
  next_object : nat
}.

(** [CONTAINER_CLASS(self)]: a new object. *)
Definition construct_container (k : string) (self : entity) (st : file_state)
    : container * file_state :=
  (Container (next_object st) k self, FileState (cached_container st) (S (next_object st))).

Section AsContainer.
(** [cls.CONTAINER_CLASS] of a [File] subclass, when it has one. *)
Variable container_class_of : string -> option string.

(** [File.as_container]. [NonExistingFile] has no [CONTAINER_CLASS] and
    always has an [_other_file] attribute; [None.__class__] has no
    [CONTAINER_CLASS] either. *)
Definition as_container (self : entity) (st : file_state)
    : res (option container) * file_state :=
  let own := match self with
             | Real f => container_class_of (file_class f)
             | NonExistingFile _ _ => None
             end in
  match own with
  | None =>
      match self with
      | Real _ => (Ok None, st)
      | NonExistingFile _ other =>
          match option_map (fun o => container_class_of (file_class o)) other with
          | Some (Some k) =>
              let (c, st') := construct_container k self st in (Ok (Some c), st')
          | _ => (Raise (OtherException "AttributeError: CONTAINER_CLASS"), st)
          end
      end
  | Some k =>
      match cached_container st with
      | Some c => (Ok (Some c), st)
      | None =>
          let (c, st') := construct_container k self st in
          (Ok (Some c), FileState (Some c) (next_object st'))
      end
  end.
End AsContainer.

(** [File.cleanup] (also run by [__del__]): delete [_as_container] when
    present. *)
Definition cleanup (st : file_state) : file_state :=
  match cached_container st with
  | Some _ => FileState None (next_object st)
  | None => st
  end.

(** ** [Stat.filter]: the six regular expressions *)

Definition is_digit (c : ascii) : bool :=
  let n := nat_of_ascii c in Nat.leb 48 n && Nat.leb n 57.

(** [[0-9a-f]] *)
Definition is_hex_digit (c : ascii) : bool :=
  let n := nat_of_ascii c in is_digit c || (Nat.leb 97 n && Nat.leb n 102).

(** [\s] on ASCII text: space, \t, \n, \v, \f, \r and \x1c to \x1f. *)
Definition is_space (c : ascii) : bool :=
  let n := nat_of_ascii c in
  Nat.eqb n 32 || (Nat.leb 9 n && Nat.leb n 13) || (Nat.leb 28 n && Nat.leb n 31).

(** [lit] at the start of [s]: what follows it. *)
Fixpoint strip_prefix (lit s : string) : option string :=
  match lit, s with
  | EmptyString, _ => Some s
  | String a lit', String b s' => if Ascii.eqb a b then strip_prefix lit' s' else None
  | String _ _, EmptyString => None
  end.

(** The greedy [p*]: what follows the longest prefix of [p]-characters. *)
Fixpoint skip_while (p : ascii -> bool) (s : string) : string :=
  match s with
  | String c s' => if p c then skip_while p s' else s
  | EmptyString => s
  end.

(** The greedy [p+]. *)
Definition skip_many1 (p : ascii -> bool) (s : string) : option string :=
  match s with
  | String c s' => if p c then Some (skip_while p s') else None
  | EmptyString => None
  end.

(** [.*$] without MULTILINE: [.] stops at a newline and [$] matches at
    the end or just before a final newline; the unconsumed rest. *)
Fixpoint dot_star_dollar (s : string) : option string :=
  match s with
  | EmptyString => Some EmptyString
  | String c s' =>
      if Ascii.eqb c "010"%char
      then match s' with EmptyString => Some s | _ => None end
      else dot_star_dollar s'
  end.

Definition opt_bind {A B} (o : option A) (f : A -> option B) : option B :=
  match o with Some a => f a | None => None end.

(** [pattern.sub('', s)] for an unanchored pattern whose matcher [m]
    returns the rest after a (non-empty) match at the current position. *)
Fixpoint sub_all_fuel (fuel : nat) (m : string -> option string) (s : string) : string :=
  match fuel with
  | 0 => s
  | S fuel' =>
      match s with
      | EmptyString => EmptyString
      | String c s' =>
          match m s with
          | Some rest => sub_all_fuel fuel' m rest
          | None => String c (sub_all_fuel fuel' m s')
          end
      end
  end.

Definition sub_all (m : string -> option string) (s : string) : string :=
  sub_all_fuel (String.length s) m s.

(** [pattern.sub('', s)] for a pattern anchored by [^] (no MULTILINE):
    only a match at position 0 is removed. *)
Definition sub_anchored (m : string -> option string) (s : string) : string :=
  match m s with Some rest => rest | None => s end.

(** [FILE_RE = r'^\s*File:.*$'] *)
Definition match_file_re (s : string) : option string :=
  opt_bind (strip_prefix "File:" (skip_while is_space s)) dot_star_dollar.

(** [DEVICE_RE = r'Device: [0-9a-f]+h/[0-9]+d'] *)
Definition match_device_re (s : string) : option string :=
  opt_bind (strip_prefix "Device: " s) (fun r =>
  opt_bind (skip_many1 is_hex_digit r) (fun r =>
  opt_bind (strip_prefix "h/" r) (fun r =>
  opt_bind (skip_many1 is_digit r) (fun r =>
  strip_prefix "d" r)))).

(** [INODE_RE = r'Inode: [0-9]+'] *)
Definition match_inode_re (s : string) : option string :=
  opt_bind (strip_prefix "Inode: " s) (skip_many1 is_digit).

(** [LINKS_RE = r'Links: [0-9]+'] *)
Definition match_links_re (s : string) : option string :=
  opt_bind (strip_prefix "Links: " s) (skip_many1 is_digit).

(** [[0-9]] *)
Definition match_digit (s : string) : option string :=
  match s with
  | String c s' => if is_digit c then Some s' else None
  | EmptyString => None
  end.

(** [[0-9]{4}-[0-9]{2}-[0-9]{2}.*$] *)
Definition match_date_rest (s : string) : option string :=
  opt_bind (match_digit s) (fun r => opt_bind (match_digit r) (fun r =>
  opt_bind (match_digit r) (fun r => opt_bind (match_digit r) (fun r =>
  opt_bind (strip_prefix "-" r) (fun r =>
  opt_bind (match_digit r) (fun r => opt_bind (match_digit r) (fun r =>
  opt_bind (strip_prefix "-" r) (fun r =>
  opt_bind (match_digit r) (fun r => opt_bind (match_digit r) (fun r =>
  dot_star_dollar r)))))))))).

(** [ACCESS_TIME_RE = r'^Access: [0-9]{4}-[0-9]{2}-[0-9]{2}.*$'] *)
Definition match_access_time_re (s : string) : option string :=
  opt_bind (strip_prefix "Access: " s) match_date_rest.

(** [CHANGE_TIME_RE = r'^Change: [0-9]{4}-[0-9]{2}-[0-9]{2}.*$'] *)
Definition match_change_time_re (s : string) : option string :=
  opt_bind (strip_prefix "Change: " s) match_date_rest.

(** [Stat.filter(line)] (the line is ASCII text, so the UTF-8 decoding
    and re-encoding are the identity). *)
Definition stat_filter (line : string) : string :=
  let line := sub_anchored match_file_re line in
  let line := sub_all match_device_re line in
  let line := sub_all match_inode_re line in
  let line := sub_all match_links_re line in
  let line := sub_anchored match_access_time_re line in
  sub_anchored match_change_time_re line.

(** The lines of a command's output, each with its newline. *)
Fixpoint lines_keepends (s : string) : list string :=
  match s with
  | EmptyString => []
  | String c s' =>
      if Ascii.eqb c "010"%char then String c EmptyString :: lines_keepends s'
      else match lines_keepends s' with
           | [] => [String c EmptyString]
           | l :: ls => String c l :: ls
           end
  end.

(** Modelled from the spec: a [Command]'s output is each line of the tool's
    standard output passed through the command's [filter]. *)
Definition filtered_output (filt : string -> string) (stdout : string) : string :=
  String.concat "" (map filt (lines_keepends stdout)).

(** ** Paths and [os.walk] *)

Definition starts_with_slash (s : string) : bool :=
  match s with String "/"%char _ => true | _ => false end.

Fixpoint ends_with_slash (s : string) : bool :=
  match s with
  | EmptyString => false
  | String c EmptyString => Ascii.eqb c "/"
  | String _ s' => ends_with_slash s'
  end.

(** [os.path.join(a, b)] (posixpath). *)
Definition py_join (a b : string) : string :=
  if starts_with_slash b then b
  else if String.eqb a "" || ends_with_slash a then a ++ b
  else a ++ "/" ++ b.

(** [s[n:]] *)
Fixpoint drop (n : nat) (s : string) : string :=
  match n, s with
  | 0, _ => s
  | S _, EmptyString => EmptyString
  | S n', String _ s' => drop n' s'
  end.

(** [s.split()]: the maximal runs of non-whitespace characters. *)
Fixpoint words_acc (cur : string) (s : string) : list string :=
  match s with
  | EmptyString => if String.eqb cur "" then [] else [cur]
  | String c s' =>
      if is_space c
      then if String.eqb cur "" then words_acc "" s' else cur :: words_acc "" s'
      else words_acc (cur ++ String c EmptyString) s'
  end.

Definition words (s : string) : list string := words_acc "" s.

(** ['\n'.join(l)] *)
Definition join_lines (l : list string) : string := String.concat (String "010" "") l.

(** A directory tree: entries in the order the directory lists them
    ([os.scandir] order, which the filesystem decides). *)
Inductive fsnode :=
| FsFile (name : string)
| FsDir (name : string) (entries : list fsnode).

Definition fsnode_name (n : fsnode) : string :=
  match n with FsFile nm => nm | FsDir nm _ => nm end.

Definition is_fsdir (n : fsnode) : bool :=
  match n with FsDir _ _ => true | FsFile _ => false end.

Definition dirnames (es : list fsnode) : list string :=
  map fsnode_name (filter is_fsdir es).

Definition filenames (es : list fsnode) : list string :=
  map fsnode_name (filter (fun n => negb (is_fsdir n)) es).

(** [os.walk(top)] (top-down) below the directory node [n] found at [top]:
    the triple of [top], then the walks of its subdirectories in order. *)
Fixpoint walk_node (top : string) (n : fsnode) {struct n}
    : list (string * list string * list string) :=
  match n with
  | FsFile _ => []
  | FsDir _ es =>
      (top, dirnames es, filenames es) ::
        (fix walk_entries (l : list fsnode) :=
           match l with
           | [] => []
           | (FsDir nm _ as d) :: l' => (walk_node (py_join top nm) d ++ walk_entries l')%list
           | FsFile _ :: l' => walk_entries l'
           end) es
  end.

(** The filesystem and the tools [directory.py] runs. *)
Record directory_env := DirectoryEnv {
  (** the directory tree found at a path, if any *)
  tree_at : string -> option fsnode;
  (** [os.path.realpath] *)
  realpath : string -> string;
  (** standard output of [stat path] and of [getfacl -p -c path] *)
  stat_output : string -> string;
  getfacl_output : string -> string;
  (** [subprocess.check_output(['lsattr', '-d', path], ...)] decoded *)
  lsattr_run : string -> res string;
  (** [diffoscope.comparators.compare_files(file1, file2, source=name)] *)
  compare_files : entity -> entity -> string -> res (option difference)
}.

(** A string ordering for [sorted]: code-point order on ASCII text. *)
Module StringOrder <: TotalLeBool.
Definition t := string.
Definition leb := String.leb.
Infix "<=?" := leb (at level 70, no associativity).
Theorem leb_total : forall a1 a2, (a1 <=? a2) = true \/ (a2 <=? a1) = true.
Proof. exact String.leb_total. Qed.
End StringOrder.

Module StringSort := Sort StringOrder.

(** [sorted(set(my_names).intersection(other_names))] *)
Definition common_names (my_names other_names : list string) : list string :=
  StringSort.sort
    (nodup string_dec (filter (fun x => existsb (String.eqb x) other_names) my_names)).

(** [FilesystemFile(path)] *)
Definition filesystem_file (path : string) : entity :=
  Real (RealFile path path "FilesystemFile").

Section Directory.
Variable env : binary_env.
Variable denv : directory_env.

Definition os_walk (top : string) : list (string * list string * list string) :=
  match tree_at denv top with
  | Some n => walk_node top n
  | None => []
  end.

(** [list_files(path)] *)
Definition list_files (path : string) : list string :=
  let path := realpath denv path in
  StringSort.sort
    (concat (map (fun '(root, dirs, names) =>
                    let rel := drop (String.length path + 1) root in
                    (map (py_join rel) dirs ++ map (py_join rel) names)%list)
                 (os_walk path))).

(** [DirectoryContainer.get_member_names()] for a container whose
    [source.path] is [path]. *)
Definition get_member_names (path : string) : list string :=
  concat (map (fun '(root, _, files) =>
                 let root := if String.eqb root path then ""
                             else drop (String.length path + 1) root in
                 map (py_join root) files)
              (os_walk path)).

(** Modelled from the spec: [Difference.from_command(cls, path1, path2)]
    runs the command on both paths, filters each output line, and diffs
    the two outputs; [cls.cmdline] is decorated with [tool_required]. *)
Definition from_command (tool : string) (filt : string -> string)
    (stdout : string -> string) (path1 path2 : string) : res (option difference) :=
  if tool_available env tool
  then from_text env (filtered_output filt (stdout path1))
         (filtered_output filt (stdout path2)) path1 path2 None []
  else Raise (RequiredToolNotFound tool).

(** [lsattr(path)]; [None] when [lsattr] fails with a status other
    than 1 (the function then falls off its end). *)
Definition lsattr (path : string) : res (option string) :=
  if tool_available env "lsattr" then
    match lsattr_run denv path with
    | Ok out =>
        match words out with
        | w :: _ => Ok (Some w)
        | [] => Raise (OtherException "IndexError")
        end
    | Raise (CalledProcessError _ rc _) =>
        if Z.eqb rc 1 then Ok (Some "") else Ok None
    | Raise e => Raise e
    end
  else Raise (RequiredToolNotFound "lsattr").

(** [Stat] *)
Definition stat_diff (path1 path2 : string) : res (option difference) :=
  from_command "stat" stat_filter (stat_output denv) path1 path2.

(** [Getfacl] (the default [Command.filter] keeps each line). *)
Definition getfacl_diff (path1 path2 : string) : res (option difference) :=
  from_command "getfacl" (fun line => line) (getfacl_output denv) path1 path2.

(** The [lsattr] step of [compare_meta]: [Difference.from_text] of the two
    summaries; a [None] summary makes [from_text] fail. *)
Definition lsattr_diff (path1 path2 : string) : res (option difference) :=
  l1 <- lsattr path1 ;;
  l2 <- lsattr path2 ;;
  match l1, l2 with
  | Some a, Some b => from_text env a b path1 path2 (Some "lattr") []
  | _, _ => Raise (OtherException "TypeError: from_text on None")
  end.

(** [try: differences.append(step) except RequiredToolNotFound: pass] *)
Definition best_effort (step : res (option difference)) : res (list (option difference)) :=
  match step with
  | Ok d => Ok [d]
  | Raise (RequiredToolNotFound _) => Ok []
  | Raise e => Raise e
  end.

(** [compare_meta(path1, path2)] *)
Definition compare_meta (path1 path2 : string) : res (list difference) :=
  s <- best_effort (stat_diff path1 path2) ;;
  l <- best_effort (lsattr_diff path1 path2) ;;
  g <- best_effort (getfacl_diff path1 path2) ;;
  Ok (filter_some (s ++ l ++ g)%list).

(** The listing step of [FilesystemDirectory.compare]. *)
Definition listing_diff (path1 path2 : string) : res (option difference) :=
  match from_text env (join_lines (list_files path1)) (join_lines (list_files path2))
          path1 path2 (Some "file list") [] with
  | Raise (RequiredToolNotFound _) => Ok None
  | r => r
  end.

(** One iteration of the loop over the common member names. *)
Definition compare_member (path1 path2 name : string) : res (option difference) :=
  let my_file := filesystem_file (py_join path1 name) in
  let other_file := filesystem_file (py_join path2 name) in
  inner <- compare_files denv my_file other_file name ;;
  meta <- compare_meta (entity_name my_file) (entity_name other_file) ;;
  let inner := match meta, inner with
               | _ :: _, None =>
                   Some (new_difference None (entity_path my_file) (entity_path other_file) None [])
               | _, i => i
               end in
  Ok (option_map (fun d => add_details d meta) inner).

(** The loop, in the order of [names]. *)
Fixpoint compare_members (path1 path2 : string) (names : list string)
    : res (list difference) :=
  match names with
  | [] => Ok []
  | name :: names' =>
      d <- compare_member path1 path2 name ;;
      rest <- compare_members path1 path2 names' ;;
      Ok (match d with Some d => d :: rest | None => rest end)
  end.

(** [FilesystemDirectory(path1).compare(FilesystemDirectory(path2), source)] *)
Definition compare_directory (path1 path2 : string) (source : option string)
    : res (option difference) :=
  listing <- listing_diff path1 path2 ;;
  meta <- compare_meta path1 path2 ;;
  let names := common_names (get_member_names path1) (get_member_names path2) in
  members <- compare_members path1 path2 names ;;
  match (filter_some [listing] ++ meta ++ members)%list with
  | [] => Ok None
  | differences =>
      Ok (Some (add_details (new_difference None path1 path2 source []) differences))
  end.
End Directory.

(** ** Auxiliary definitions for the proofs *)

(** Decoding a hex dump back into bytes (newlines skipped). *)
Definition hex_value (c : ascii) : nat :=
  let n := nat_of_ascii c in if Nat.leb n 57 then n - 48 else n - 87.

Definition byte_of_hex (hi lo : ascii) : Byte.byte :=
  match Byte.of_nat (16 * hex_value hi + hex_value lo) with
  | Some b => b
  | None => Byte.x00
  end.

Fixpoint unhex (s : string) : list Byte.byte :=
  match s with
  | EmptyString => []
  | String a s' =>
      if Ascii.eqb a "010"%char then unhex s'
      else match s' with
           | String b s'' => byte_of_hex a b :: unhex s''
           | EmptyString => []
           end
  end.

(** Two outputs of GNU [stat] (default format, whose device line is
    ["Device: %Dh/%dd\tInode: %-10i  Links: %h"]) for two directories that
    differ only in their inode numbers, 1234 and 12345 (and in the path
    on the [File:] line). *)
Definition nl : string := String "010" "".
Definition tab : string := String "009" "".

Definition stat_lines_with (file_line device_line : string) : string :=
  file_line ++ nl
  ++ "  Size: 4096      " ++ tab ++ "Blocks: 8          IO Block: 4096   directory" ++ nl
  ++ device_line ++ nl
  ++ "Access: (0755/drwxr-xr-x)  Uid: ( 1000/    user)   Gid: ( 1000/    user)" ++ nl
  ++ "Access: 2015-06-22 10:00:00.000000000 +0200" ++ nl
  ++ "Modify: 2015-06-22 10:00:00.000000000 +0200" ++ nl
  ++ "Change: 2015-06-22 10:00:00.000000000 +0200" ++ nl
  ++ " Birth: -" ++ nl.

Definition stat_device_line_left : string :=
  "Device: 801h/2049d" ++ tab ++ "Inode: 1234        Links: 2".
Definition stat_device_line_right : string :=
  "Device: 801h/2049d" ++ tab ++ "Inode: 12345       Links: 2".

Definition stat_output_left : string :=
  stat_lines_with "  File: 'left/d'" stat_device_line_left.
Definition stat_output_right : string :=
  stat_lines_with "  File: 'right/d'" stat_device_line_right.

(** The descendant files of a directory node, with their paths relative to
    it (under [prefix]), in traversal order: the node's own files in
    listing order, then those of each subdirectory in listing order. *)
Fixpoint member_files (prefix : string) (n : fsnode) {struct n} : list string :=
  match n with
  | FsFile _ => []
  | FsDir _ es =>
      (map (py_join prefix) (filenames es) ++
       (fix member_entries (l : list fsnode) :=
          match l with
          | [] => []
          | (FsDir nm _ as d) :: l' => member_files (py_join prefix nm) d ++ member_entries l'
          | FsFile _ :: l' => member_entries l'
          end) es)%list
  end.

Fixpoint contains_slash (s : string) : bool :=
  match s with
  | EmptyString => false
  | String c s' => Ascii.eqb c "/" || contains_slash s'
  end.

(** A file name as a directory lists it: non-empty, without a separator. *)
Definition name_okb (nm : string) : bool :=
  negb (String.eqb nm "") && negb (contains_slash nm).

Fixpoint names_okb (n : fsnode) {struct n} : bool :=
  match n with
  | FsFile nm => name_okb nm
  | FsDir nm es =>
      name_okb nm &&
      (fix entries_ok (l : list fsnode) :=
         match l with
         | [] => true
         | x :: l' => names_okb x && entries_ok l'
         end) es
  end.

(** Induction on directory trees, with a hypothesis for every entry. *)
Fixpoint fsnode_ind2 (P : fsnode -> Prop) (Hfile : forall nm, P (FsFile nm))
    (Hdir : forall nm es, Forall P es -> P (FsDir nm es)) (n : fsnode) {struct n} : P n :=
  match n with
  | FsFile nm => Hfile nm
  | FsDir nm es =>
      Hdir nm es
        ((fix entries (l : list fsnode) : Forall P l :=
            match l with
            | [] => Forall_nil P
            | x :: l' => Forall_cons x (fsnode_ind2 P Hfile Hdir x) (entries l')
            end) es)
  end.

(** The walk root of the directory at relative path [q] below [p]. *)
Definition abs_path (p q : string) : string := if String.eqb q "" then p else p ++ "/" ++ q.

(** Example inputs: two zip files with different bytes, tools installed
    except [xxd], [cmp] and [diff] behaving as documented, and a decoder
    whose [compare_details] gives [details_result]. *)
Definition example_read (p : string) : list Byte.byte :=
  if String.eqb p "a.zip" then [Byte.x50; Byte.x4b]
  else if String.eqb p "b.zip" then [Byte.x50; Byte.x4c]
  else [].

Definition zip_a : real_file := RealFile "a.zip" "a.zip" "ZipFile".
Definition zip_b : real_file := RealFile "b.zip" "b.zip" "ZipFile".

Definition example_env (details_result : res (list (option difference))) : binary_env :=
  {| has_compare_details := fun _ => true;
     as_container_nonnull := fun _ => false;
     compare_details := fun _ _ _ => details_result;
     container_compare := fun _ _ => Ok [];
     overrides_compare := fun _ => false;
     class_compare := fun _ _ _ => Ok None;
     read_file := example_read;
     xxd_from_command := fun _ _ _ _ => Raise (RequiredToolNotFound "xxd");
     diff_texts := fun t1 t2 => if String.eqb t1 t2 then Ok None else Ok (Some "@@ -1 +1 @@");
     get_package := fun c => if String.eqb c "unzip" then Some "unzip" else None;
     decode_utf8_replace := fun _ => "";
     tool_available := fun _ => true;
     cmp_exit := fun p1 p2 => if bytes_eqb (example_read p1) (example_read p2) then 0%Z else 1%Z;
     reverse_unified_diff := fun u => u |}.

(** Two directory trees [left] and [right]: members [b], [a], [c] on both
    sides, [only_left.txt] and [sub/z] on the left only; the member [b]
    differs. *)
Definition example_denv : directory_env :=
  {| tree_at := fun path =>
       if String.eqb path "left"
       then Some (FsDir "left" [FsFile "b"; FsFile "a"; FsFile "only_left.txt";
                                  FsDir "sub" [FsFile "z"]; FsFile "c"])
       else if String.eqb path "right"
       then Some (FsDir "right" [FsFile "c"; FsFile "a"; FsFile "b"])
       else None;
     realpath := fun path => path;
     stat_output := fun path =>
       if String.eqb path "left/d" then stat_output_left
       else if String.eqb path "right/d" then stat_output_right
       else "";
     getfacl_output := fun _ => "";
     lsattr_run := fun _ => Ok "--------------e---- x";
     compare_files := fun f1 f2 name =>
       if String.eqb name "b"
       then Ok (Some (new_difference (Some "@@ -1 +1 @@") (entity_name f1) (entity_name f2)
                        (Some name) []))
       else Ok None |}.

(** A relative member path as [os.walk] produces it below the top. *)
Definition good_rel (q : string) : Prop :=
  q = "" \/ (q <> "" /\ starts_with_slash q = false /\ ends_with_slash q = false).

(** Auxiliary predicates used to state properties of the code. *)

(** Number of occurrences of a character in a string. *)
Fixpoint count_char (c : ascii) (s : string) : nat :=
  match s with
  | EmptyString => 0
  | String a s' => (if Ascii.eqb a c then 1 else 0) + count_char c s'
  end.

(** Every character of the string satisfies [p]. *)
Fixpoint all_chars (p : ascii -> bool) (s : string) : bool :=
  match s with
  | EmptyString => true
  | String c s' => p c && all_chars p s'
  end.

(** A 7-bit character: on such text [decode('utf-8')] and
    [encode('utf-8')] are the identity. *)
Definition is_ascii_char (c : ascii) : bool := Nat.ltb (nat_of_ascii c) 128.

Definition not_newline (c : ascii) : bool := negb (Ascii.eqb c "010"%char).

(** A matcher that consumes a non-empty part of a single line. *)
Definition eats_line (m : string -> option string) : Prop :=
  forall s r, m s = Some r -> exists p, p <> "" /\ all_chars not_newline p = true /\ s = p ++ r.

(** A matcher that consumes a (possibly empty) part of a single line. *)
Definition eats_any (k : string -> option string) : Prop :=
  forall s r, k s = Some r -> exists q, all_chars not_newline q = true /\ s = q ++ r.

(** A matcher that, on a line, consumes all of it but its newline. *)
Definition ends_line (k : string -> option string) : Prop :=
  forall x r, all_chars not_newline x = true -> k (x ++ nl) = Some r -> r = nl.

(** All descendants of a directory tree as paths relative to it, directories
    included, in the order in which [os.walk] visits them. *)
Fixpoint all_entries (prefix : string) (n : fsnode) {struct n} : list string :=
  match n with
  | FsFile _ => []
  | FsDir _ es =>
      (map (py_join prefix) (dirnames es) ++ map (py_join prefix) (filenames es) ++
       (fix entries (l : list fsnode) :=
          match l with
          | [] => []
          | (FsDir nm _ as d) :: l' => all_entries (py_join prefix nm) d ++ entries l'
          | FsFile _ :: l' => entries l'
          end) es)%list
  end.

(** Two directory trees [x] and [y] listing the same entries in different
    orders, and an environment where [stat], [lsattr] and [getfacl] are not
    installed. *)
Definition example_denv_reordered : directory_env :=
  {| tree_at := fun path =>
       if String.eqb path "x"
       then Some (FsDir "x" [FsFile "b"; FsFile "a"; FsDir "d" [FsFile "c"]])
       else if String.eqb path "y"
       then Some (FsDir "y" [FsDir "d" [FsFile "c"]; FsFile "a"; FsFile "b"])
       else None;
     realpath := fun path => path;
     stat_output := fun _ => "";
     getfacl_output := fun _ => "";
     lsattr_run := fun _ => Ok "";
     compare_files := fun _ _ _ => Ok None |}.

Definition example_env_no_meta_tools : binary_env :=
  {| has_compare_details := fun _ => false;
     as_container_nonnull := fun _ => false;
     compare_details := fun _ _ _ => Ok [];
     container_compare := fun _ _ => Ok [];
     overrides_compare := fun _ => false;
     class_compare := fun _ _ _ => Ok None;
     read_file := example_read;
     xxd_from_command := fun _ _ _ _ => Raise (RequiredToolNotFound "xxd");
     diff_texts := fun t1 t2 => if String.eqb t1 t2 then Ok None else Ok (Some "@@ -1 +1 @@");
     get_package := fun _ => None;
     decode_utf8_replace := fun _ => "";
     tool_available := fun t =>
       negb (String.eqb t "stat" || String.eqb t "lsattr" || String.eqb t "getfacl");
     cmp_exit := fun p1 p2 => if bytes_eqb (example_read p1) (example_read p2) then 0%Z else 1%Z;
     reverse_unified_diff := fun u => u |}.

(** The environment [env] with the tool [t] uninstalled: [tool_available]
    answers [false] for [t] and is unchanged for every other tool. *)
Definition without_tool (t : string) (env : binary_env) : binary_env :=
  {| has_compare_details := has_compare_details env;
     as_container_nonnull := as_container_nonnull env;
     compare_details := compare_details env;
     container_compare := container_compare env;
     overrides_compare := overrides_compare env;
     class_compare := class_compare env;
     read_file := read_file env;
     xxd_from_command := xxd_from_command env;
     diff_texts := diff_texts env;
     get_package := get_package env;
     decode_utf8_replace := decode_utf8_replace env;
     tool_available := fun u => if String.eqb u t then false else tool_available env u;
     cmp_exit := cmp_exit env;
     reverse_unified_diff := reverse_unified_diff env |}.

(** A root directory [/] holding a directory [usr] with a file [x]. *)
Definition example_denv_root : directory_env :=
  {| tree_at := fun path =>
       if String.eqb path "/" then Some (FsDir "/" [FsDir "usr" [FsFile "x"]]) else None;
     realpath := fun path => path;
     stat_output := fun _ => "";
     getfacl_output := fun _ => "";
     lsattr_run := fun _ => Ok "";
     compare_files := fun _ _ _ => Ok None |}.

(** ** Theorems *)

(** The example tools behave as documented. *)
Lemma example_diff_detects (r : res (list (option difference))) :
  forall t1 t2, t1 <> t2 -> exists u, diff_texts (example_env r) t1 t2 = Ok (Some u).
Proof.
  intros t1 t2 Hne. simpl. destruct (String.eqb_spec t1 t2); [contradiction | eexists; reflexivity].
Qed.

Lemma bytes_eqb_spec (a b : list Byte.byte) : bytes_eqb a b = true <-> a = b.
Proof. unfold bytes_eqb. destruct (list_eq_dec Byte.byte_eq_dec a b); split; congruence. Qed.

Lemma example_cmp_spec (r : res (list (option difference))) :
  forall p1 p2, cmp_exit (example_env r) p1 p2 = 0%Z
                <-> read_file (example_env r) p1 = read_file (example_env r) p2.
Proof.
  intros p1 p2. simpl. destruct (bytes_eqb (example_read p1) (example_read p2)) eqn:E.
  - apply bytes_eqb_spec in E. tauto.
  - split; [discriminate|]. intros H. apply bytes_eqb_spec in H. congruence.
Qed.

(** *** Hex dump fallback *)

Lemma byte_of_hex_hexlify_byte (b : Byte.byte) :
  byte_of_hex (hex_digit (Byte.to_nat b / 16)) (hex_digit (Byte.to_nat b mod 16)) = b.
Proof. destruct b; vm_compute; reflexivity. Qed.

Lemma hex_digit_not_newline (n : nat) : Ascii.eqb (hex_digit n) "010"%char = false.
Proof. do 16 (destruct n as [|n]; [reflexivity|]). reflexivity. Qed.

Lemma string_app_assoc (a b c : string) : (a ++ b) ++ c = a ++ (b ++ c).
Proof. induction a as [|x a IH]; simpl; [reflexivity | now rewrite IH]. Qed.

Lemma unhex_hexlify (l : list Byte.byte) (s : string) :
  unhex (hexlify l ++ s) = (l ++ unhex s)%list.
Proof.
  induction l as [|b l IH]; [reflexivity|].
  cbn [hexlify]. rewrite string_app_assoc. unfold hexlify_byte.
  set (hi := hex_digit (Byte.to_nat b / 16)). set (lo := hex_digit (Byte.to_nat b mod 16)).
  cbn [append unhex]. unfold hi at 1. rewrite hex_digit_not_newline, IH.
  unfold hi, lo. rewrite byte_of_hex_hexlify_byte. reflexivity.
Qed.

Lemma unhex_hexdump_lines (fuel : nat) (l : list Byte.byte) :
  length l <= fuel -> unhex (hexdump_lines fuel l) = l.
Proof.
  revert l; induction fuel as [|fuel IH]; intros l Hl.
  - destruct l; [reflexivity | simpl in Hl; lia].
  - destruct l as [|b l']; [reflexivity|].
    cbn [hexdump_lines]. rewrite unhex_hexlify. cbn [unhex Ascii.eqb Bool.eqb].
    simpl (Ascii.eqb _ _). rewrite IH.
    + apply firstn_skipn.
    + rewrite length_skipn. simpl in Hl. simpl. lia.
Qed.

(** The Python hex dump determines the bytes of the file. *)
Lemma hexdump_fallback_injective (env : binary_env) (p1 p2 : string) :
  hexdump_fallback env p1 = hexdump_fallback env p2 -> read_file env p1 = read_file env p2.
Proof.
  unfold hexdump_fallback. intros H.
  rewrite <- (unhex_hexdump_lines (length (read_file env p1)) (read_file env p1)) by lia.
  rewrite <- (unhex_hexdump_lines (length (read_file env p2)) (read_file env p2)) by lia.
  now rewrite H.
Qed.

(** [compare_bytes] reports a difference for differing bytes, provided
    [xxd] reports one when it runs and [diff] reports differing texts. *)
Lemma compare_bytes_detects (env : binary_env) (self : real_file) (other : entity)
    (source : option string) :
  (forall p1 p2 n1 n2, read_file env p1 <> read_file env p2 ->
     xxd_from_command env p1 p2 n1 n2 = Raise (RequiredToolNotFound "xxd")
     \/ exists d, xxd_from_command env p1 p2 n1 n2 = Ok (Some d)) ->
  (forall t1 t2, t1 <> t2 -> exists u, diff_texts env t1 t2 = Ok (Some u)) ->
  read_file env (file_path self) <> read_file env (entity_path other) ->
  exists d, compare_bytes env self other source = Ok (Some d).
Proof.
  intros Hxxd Hdiff Hne.
  unfold compare_bytes, compare_binary_files.
  destruct (Hxxd _ _ (file_name self) (entity_name other) Hne) as [Hx | [d Hx]];
    rewrite Hx; [|eauto].
  unfold from_text.
  destruct (Hdiff (hexdump_fallback env (file_path self)) (hexdump_fallback env (entity_path other)))
    as [u Hu].
  - intros Heq. apply Hne. now apply hexdump_fallback_injective.
  - rewrite Hu. simpl. eauto.
Qed.

(** *** [File.compare] *)

Lemma file_compare_try_ok (env : binary_env) (self : real_file) (other : entity)
    (source : option string) (r : option difference) :
  (has_compare_details env self || as_container_nonnull env self) = true ->
  compare_try_body env self other source = Ok r ->
  file_compare env self other source = Ok r.
Proof. intros Hg Hb. unfold file_compare. now rewrite Hg, Hb. Qed.

(** C10: when the details-based comparison yields no differences and
    [compare_bytes] yields none either, [File.compare] returns absent
    with no comment; the comment "No differences found inside, yet data
    differs" is attached only to a difference [compare_bytes] produced. *)
Theorem compare_no_details_identical_bytes_absent (env : binary_env) (self : real_file)
    (other : entity) (source : option string) :
  (has_compare_details env self || as_container_nonnull env self) = true ->
  compare_using_details env self other source = Ok None ->
  (compare_bytes env self other source = Ok None ->
   file_compare env self other source = Ok None)
  /\ (forall d, compare_bytes env self other source = Ok (Some d) ->
      file_compare env self other source
        = Ok (Some (add_comment d "No differences found inside, yet data differs"))).
Proof.
  intros Hg Hd. split.
  - intros Hb. apply file_compare_try_ok; [exact Hg|].
    unfold compare_try_body. now rewrite Hd; simpl; rewrite Hb.
  - intros d Hb. apply file_compare_try_ok; [exact Hg|].
    unfold compare_try_body. now rewrite Hd; simpl; rewrite Hb.
Qed.

Lemma compare_no_details_identical_bytes_absent_witness :
  file_compare (example_env (Ok [None])) zip_a (Real zip_a) None = Ok None.
Proof.
  apply (proj1 (compare_no_details_identical_bytes_absent (example_env (Ok [None])) zip_a
                  (Real zip_a) None eq_refl ltac:(vm_compute; reflexivity))).
  vm_compute. reflexivity.
Defined.

(** C3: for a pair supporting detail comparison, when the details-based
    comparison finds nothing but the bytes differ, [File.compare] returns
    the [compare_bytes] difference with the added last comment
    "No differences found inside, yet data differs". The hypotheses say
    that [xxd] (when installed) and [diff] report differing inputs. *)
Theorem compare_no_details_data_differs (env : binary_env) (self : real_file)
    (other : entity) (source : option string) :
  (forall p1 p2 n1 n2, read_file env p1 <> read_file env p2 ->
     xxd_from_command env p1 p2 n1 n2 = Raise (RequiredToolNotFound "xxd")
     \/ exists d, xxd_from_command env p1 p2 n1 n2 = Ok (Some d)) ->
  (forall t1 t2, t1 <> t2 -> exists u, diff_texts env t1 t2 = Ok (Some u)) ->
  (has_compare_details env self || as_container_nonnull env self) = true ->
  compare_using_details env self other source = Ok None ->
  read_file env (file_path self) <> read_file env (entity_path other) ->
  exists d, compare_bytes env self other source = Ok (Some d)
    /\ file_compare env self other source
       = Ok (Some (add_comment d "No differences found inside, yet data differs"))
    /\ last (comments (add_comment d "No differences found inside, yet data differs")) ""
       = "No differences found inside, yet data differs".
Proof.
  intros Hxxd Hdiff Hg Hd Hne.
  destruct (compare_bytes_detects env self other source Hxxd Hdiff Hne) as [d Hb].
  exists d. split; [exact Hb|]. split.
  - apply file_compare_try_ok; [exact Hg|].
    unfold compare_try_body. now rewrite Hd; simpl; rewrite Hb.
  - destruct d as [u s1 s2 cs ds]. simpl. apply last_last.
Qed.

Lemma compare_no_details_data_differs_witness :
  exists d, file_compare (example_env (Ok [None])) zip_a (Real zip_b) None
            = Ok (Some (add_comment d "No differences found inside, yet data differs")).
Proof.
  assert (Hxxd : forall p1 p2 n1 n2,
             read_file (example_env (Ok [None])) p1 <> read_file (example_env (Ok [None])) p2 ->
             xxd_from_command (example_env (Ok [None])) p1 p2 n1 n2
             = Raise (RequiredToolNotFound "xxd")
             \/ exists d, xxd_from_command (example_env (Ok [None])) p1 p2 n1 n2 = Ok (Some d))
    by (intros; left; reflexivity).
  assert (Hne : read_file (example_env (Ok [None])) (file_path zip_a)
                <> read_file (example_env (Ok [None])) (entity_path (Real zip_b)))
    by (vm_compute; discriminate).
  destruct (compare_no_details_data_differs (example_env (Ok [None])) zip_a (Real zip_b) None
              Hxxd (example_diff_detects _) eq_refl ltac:(vm_compute; reflexivity) Hne)
    as [d [_ [H _]]].
  exists d. exact H.
Defined.




(** *** [NonExistingFile.compare] *)

(** C2: a [NonExistingFile] compared with an existing file returns the
    structural reverse of the backward comparison (absent when it is
    absent, and raising what it raises); the reverse swaps the two labels
    at every node and keeps the comments and the order of the children;
    two [NonExistingFile]s give one difference with the comment "Trying
    to compare two non-existing files." and no children. *)
Theorem nonexisting_compare_reverse (env : binary_env) (n : string) (o : option real_file)
    (f : real_file) (source : option string) :
  compare env (NonExistingFile n o) (Real f) source
    = res_map (option_map (get_reverse (reverse_unified_diff env)))
        (compare env (Real f) (NonExistingFile n o) source)
  /\ (compare env (Real f) (NonExistingFile n o) source = Ok None ->
      compare env (NonExistingFile n o) (Real f) source = Ok None)
  /\ (forall d, source1 (get_reverse (reverse_unified_diff env) d) = source2 d
        /\ source2 (get_reverse (reverse_unified_diff env) d) = source1 d
        /\ comments (get_reverse (reverse_unified_diff env) d) = comments d
        /\ details (get_reverse (reverse_unified_diff env) d)
           = map (get_reverse (reverse_unified_diff env)) (details d))
  /\ (forall n2 o2, exists d,
        compare env (NonExistingFile n o) (NonExistingFile n2 o2) source = Ok (Some d)
        /\ comments d = ["Trying to compare two non-existing files."]
        /\ details d = []).
Proof.
  split; [|split; [|split]].
  - simpl. destruct (if overrides_compare env f then _ else _) as [[d|]|e]; reflexivity.
  - simpl. intros H. rewrite H. reflexivity.
  - intros [u s1 s2 cs ds]. simpl. repeat split.
  - intros n2 o2. eexists. split; [reflexivity|]. split; reflexivity.
Qed.

(** *** [File.has_same_content_as] *)


(** C4: with [cmp] installed, and [cmp -s] exiting 0 exactly on equal
    contents, [has_same_content_as] returns whether the two contents are
    equal; it agrees with the [cmp] path for every pair, including small
    and empty files; equal small files of equal size are decided in
    memory without running [cmp]; otherwise exactly [cmp -s] runs. *)
Theorem has_same_content_as_correct (env : binary_env) (self : real_file) (other : entity) :
  tool_available env "cmp" = true ->
  (forall p1 p2, cmp_exit env p1 p2 = 0%Z <-> read_file env p1 = read_file env p2) ->
  let c1 := read_file env (file_path self) in
  let c2 := read_file env (entity_path other) in
  (fst (has_same_content_as env self other) = Ok true <-> c1 = c2)
  /\ fst (has_same_content_as env self other) = Ok (bytes_eqb c1 c2)
  /\ fst (has_same_content_as env self other)
     = Ok (Z.eqb 0 (cmp_exit env (file_path self) (entity_path other)))
  /\ (getsize env (file_path self) = getsize env (entity_path other)
      /\ (getsize env (file_path self) <= SMALL_FILE_THRESHOLD)%N /\ c1 = c2 ->
      snd (has_same_content_as env self other) = [])
  /\ (~ (getsize env (file_path self) = getsize env (entity_path other)
         /\ (getsize env (file_path self) <= SMALL_FILE_THRESHOLD)%N) ->
      has_same_content_as env self other
      = (Ok (Z.eqb 0 (cmp_exit env (file_path self) (entity_path other))),
         [["cmp"; "-s"; file_path self; entity_path other]])).
Proof.
  intros Htool Hcmp. cbv zeta.
  set (c1 := read_file env (file_path self)). set (c2 := read_file env (entity_path other)).
  assert (Hz : Z.eqb 0 (cmp_exit env (file_path self) (entity_path other)) = bytes_eqb c1 c2).
  { destruct (bytes_eqb c1 c2) eqn:E.
    - apply bytes_eqb_spec in E. apply Z.eqb_eq. symmetry. now apply Hcmp.
    - apply Z.eqb_neq. intros H. symmetry in H. apply Hcmp in H.
      apply bytes_eqb_spec in H. unfold c1, c2 in E. congruence. }
  assert (Hfst : fst (has_same_content_as env self other) = Ok (bytes_eqb c1 c2)).
  { unfold has_same_content_as, tool_required. rewrite Htool. fold c1 c2.
    destruct (N.eqb _ _ && N.leb _ _ && bytes_eqb c1 c2) eqn:C; cbn -[Z.eqb bytes_eqb].
    - apply andb_true_iff in C. destruct C as [_ C]. now rewrite C.
    - now rewrite Hz. }
  split; [|split; [|split; [|split]]].
  - rewrite Hfst. split.
    + intros H. injection H as H. now apply bytes_eqb_spec.
    + intros H. apply bytes_eqb_spec in H. now rewrite H.
  - exact Hfst.
  - now rewrite Hfst, Hz.
  - intros [Es [El Ec]]. unfold has_same_content_as, tool_required. rewrite Htool. fold c1 c2.
    rewrite (proj2 (N.eqb_eq _ _) Es), (proj2 (N.leb_le _ _) El), (proj2 (bytes_eqb_spec _ _) Ec).
    reflexivity.
  - intros Hn. unfold has_same_content_as, tool_required. rewrite Htool.
    destruct (N.eqb _ _) eqn:E1, (N.leb _ _) eqn:E2; simpl; try reflexivity.
    exfalso. apply Hn. split; [apply N.eqb_eq | apply N.leb_le]; assumption.
Qed.

Lemma has_same_content_as_correct_witness :
  fst (has_same_content_as (example_env (Ok [])) zip_a (Real zip_b)) = Ok false.
Proof.
  destruct (has_same_content_as_correct (example_env (Ok [])) zip_a (Real zip_b) eq_refl
              (example_cmp_spec _)) as [_ [H _]].
  rewrite H. vm_compute. reflexivity.
Defined.

(** C9: [has_same_content_as] requires [cmp] for every input: without it
    the call raises [RequiredToolNotFound('cmp')] and runs nothing, even
    for small files of equal size; with it, equal-size small files whose
    contents differ in memory still run [cmp -s], whose status decides. *)
Theorem has_same_content_as_requires_cmp (env : binary_env) (self : real_file) (other : entity) :
  (tool_available env "cmp" = false ->
   has_same_content_as env self other = (Raise (RequiredToolNotFound "cmp"), []))
  /\ (tool_available env "cmp" = true ->
      getsize env (file_path self) = getsize env (entity_path other) ->
      (getsize env (file_path self) <= SMALL_FILE_THRESHOLD)%N ->
      read_file env (file_path self) <> read_file env (entity_path other) ->
      has_same_content_as env self other
      = (Ok (Z.eqb 0 (cmp_exit env (file_path self) (entity_path other))),
         [["cmp"; "-s"; file_path self; entity_path other]])).
Proof.
  split.
  - intros H. unfold has_same_content_as, tool_required. now rewrite H.
  - intros Ht Hs Hl Hne. unfold has_same_content_as, tool_required. rewrite Ht.
    rewrite Hs, N.eqb_refl. rewrite <- Hs. apply N.leb_le in Hl. rewrite Hl. simpl.
    destruct (bytes_eqb _ _) eqn:E; [apply bytes_eqb_spec in E; contradiction | reflexivity].
Qed.

(** *** [File.as_container] and [File.cleanup] *)

(** C8 (counterexample): a [NonExistingFile] whose counterpart is a zip
    file constructs a new container view at each access of [as_container]:
    two accesses give two distinct objects. *)
Lemma as_container_nonexisting_not_cached :
  let container_class_of := fun k => if String.eqb k "ZipFile" then Some "ZipContainer" else None in
  let self := NonExistingFile "test1.zip" (Some (RealFile "test2.zip" "test2.zip" "ZipFile")) in
  let st0 := FileState None 0 in
  let '(r1, st1) := as_container container_class_of self st0 in
  let '(r2, st2) := as_container container_class_of self st1 in
  r1 = Ok (Some (Container 0 "ZipContainer" self))
  /\ r2 = Ok (Some (Container 1 "ZipContainer" self))
  /\ r1 <> r2 /\ next_object st2 = 2.
Proof. vm_compute. split; [reflexivity|]. split; [reflexivity|]. split; [|reflexivity]. discriminate. Qed.

(** C8 (amended): for an entity whose class has a [CONTAINER_CLASS], the
    first access constructs one view and caches it, and every further
    access returns that same object without constructing another until
    [cleanup]; [cleanup] drops the cached view, never fails, and is
    idempotent. An entity without its own [CONTAINER_CLASS] caches
    nothing: a [NonExistingFile] constructs a new view of its counterpart's
    container class at each access. *)
Theorem as_container_cached (container_class_of : string -> option string)
    (f : real_file) (k : string) (st : file_state) :
  container_class_of (file_class f) = Some k ->
  (exists c,
     fst (as_container container_class_of (Real f) st) = Ok (Some c)
     /\ cached_container (snd (as_container container_class_of (Real f) st)) = Some c
     /\ next_object (snd (as_container container_class_of (Real f) st))
        <= S (next_object st)
     /\ as_container container_class_of (Real f) (snd (as_container container_class_of (Real f) st))
        = (Ok (Some c), snd (as_container container_class_of (Real f) st)))
  /\ cleanup (cleanup st) = cleanup st
  /\ cached_container (cleanup st) = None
  /\ next_object (cleanup st) = next_object st
  /\ (forall n o k', container_class_of (file_class o) = Some k' ->
        as_container container_class_of (NonExistingFile n (Some o)) st
        = (Ok (Some (Container (next_object st) k' (NonExistingFile n (Some o)))),
           FileState (cached_container st) (S (next_object st)))).
Proof.
  intros Hk. split; [|split; [|split; [|split]]].
  - unfold as_container. simpl. rewrite Hk.
    destruct (cached_container st) as [c|] eqn:Ec.
    + exists c. simpl. split; [reflexivity|]. split; [exact Ec|]. split; [lia|].
      unfold as_container. simpl. try rewrite Hk; now rewrite ?Ec.
    + eexists. simpl. split; [reflexivity|]. split; [reflexivity|]. split; [lia|].
      unfold as_container. simpl. try rewrite Hk; reflexivity.
  - destruct st as [[c|] n]; reflexivity.
  - destruct st as [[c|] n]; reflexivity.
  - destruct st as [[c|] n]; reflexivity.
  - intros n o k' Ho. unfold as_container. simpl. now rewrite Ho.
Qed.

Lemma as_container_cached_witness :
  exists c, fst (as_container (fun k => if String.eqb k "ZipFile" then Some "ZipContainer" else None)
                   (Real zip_a) (FileState None 0)) = Ok (Some c).
Proof.
  destruct (as_container_cached (fun k => if String.eqb k "ZipFile" then Some "ZipContainer" else None)
              zip_a "ZipContainer" (FileState None 0) eq_refl) as [[c [H _]] _].
  exists c. exact H.
Defined.

(** *** [FilesystemDirectory.compare] *)

Lemma common_names_In (my other : list string) (x : string) :
  In x (common_names my other) <-> In x my /\ In x other.
Proof.
  unfold common_names. split.
  - intros H. apply (Permutation_in _ (Permutation_sym (StringSort.Permuted_sort _))) in H.
    apply nodup_In, filter_In in H. destruct H as [H1 H2]. split; [exact H1|].
    apply existsb_exists in H2. destruct H2 as [y [Hy Heq]].
    apply String.eqb_eq in Heq. now subst.
  - intros [H1 H2]. apply (Permutation_in _ (StringSort.Permuted_sort _)).
    apply nodup_In, filter_In. split; [exact H1|].
    apply existsb_exists. exists x. split; [exact H2 | apply String.eqb_refl].
Qed.

Lemma common_names_NoDup (my other : list string) : NoDup (common_names my other).
Proof.
  unfold common_names. eapply Permutation_NoDup; [apply StringSort.Permuted_sort|].
  apply NoDup_nodup.
Qed.

Lemma common_names_sorted (my other : list string) :
  Sorted (fun a b => String.leb a b = true) (common_names my other).
Proof. unfold common_names. apply StringSort.Sorted_sort. Qed.

Lemma compare_members_spec (env : binary_env) (denv : directory_env) (path1 path2 : string)
    (names : list string) (ms : list difference) :
  compare_members env denv path1 path2 names = Ok ms ->
  exists outs, Forall2 (fun name o => compare_member env denv path1 path2 name = Ok o) names outs
    /\ ms = filter_some outs.
Proof.
  revert ms; induction names as [|name names IH]; intros ms H.
  - simpl in H. injection H as <-. exists []. split; constructor.
  - simpl in H. destruct (compare_member env denv path1 path2 name) as [o|e] eqn:Eo;
      [|discriminate].
    simpl in H. destruct (compare_members env denv path1 path2 names) as [rest|e] eqn:Er;
      [|discriminate].
    simpl in H. injection H as <-.
    destruct (IH rest eq_refl) as [outs [Hf ->]].
    exists (o :: outs). split; [constructor; assumption|].
    destruct o; reflexivity.
Qed.

(** C5: [FilesystemDirectory.compare] iterates exactly over the member
    names common to both directories, each once, in sorted order (members
    b, a, c give a, b, c); the member details come in that order, one per
    common name with a difference; names on one side only get no member
    detail; and the result is absent exactly when the listing, the
    directory metadata and every member show no difference. *)
Theorem compare_directory_common_members (env : binary_env) (denv : directory_env)
    (path1 path2 : string) (source : option string) (r : option difference) :
  compare_directory env denv path1 path2 source = Ok r ->
  let names := common_names (get_member_names denv path1) (get_member_names denv path2) in
  (forall x, In x names <-> In x (get_member_names denv path1) /\ In x (get_member_names denv path2))
  /\ NoDup names
  /\ Sorted (fun a b => String.leb a b = true) names
  /\ common_names ["b"; "a"; "c"] ["b"; "a"; "c"] = ["a"; "b"; "c"]
  /\ exists listing meta outs,
       listing_diff env denv path1 path2 = Ok listing
       /\ compare_meta env denv path1 path2 = Ok meta
       /\ Forall2 (fun name o => compare_member env denv path1 path2 name = Ok o) names outs
       /\ (r = None <-> listing = None /\ meta = [] /\ filter_some outs = [])
       /\ (forall d, r = Some d ->
             details d = (filter_some [listing] ++ meta ++ filter_some outs)%list).
Proof.
  intros H names. split; [apply common_names_In|].
  split; [apply common_names_NoDup|]. split; [apply common_names_sorted|].
  split; [vm_compute; reflexivity|].
  unfold compare_directory in H.
  destruct (listing_diff env denv path1 path2) as [listing|e] eqn:El; [|discriminate].
  cbn [bind] in H. destruct (compare_meta env denv path1 path2) as [meta|e] eqn:Em; [|discriminate].
  cbn [bind] in H. fold names in H.
  destruct (compare_members env denv path1 path2 names) as [ms|e] eqn:Ems; [|discriminate].
  cbn [bind] in H. destruct (compare_members_spec _ _ _ _ _ _ Ems) as [outs [Hf Hms]].
  exists listing, meta, outs. split; [reflexivity|]. split; [reflexivity|].
  split; [exact Hf|]. subst ms.
  destruct (filter_some [listing] ++ meta ++ filter_some outs)%list as [|d0 ds] eqn:Eall.
  - injection H as <-. split; [|intros; discriminate].
    split; [intros _|reflexivity].
    apply app_eq_nil in Eall. destruct Eall as [E1 E2]. apply app_eq_nil in E2.
    destruct listing; [discriminate|]. tauto.
  - injection H as <-. split.
    + split; [discriminate|]. intros [-> [-> Ho]]. rewrite Ho in Eall. discriminate.
    + intros d Hd. injection Hd as <-. rewrite ?Eall. destruct source; reflexivity.
Qed.

Lemma compare_directory_common_members_witness :
  exists r, compare_directory (example_env (Ok [])) example_denv "left" "right" None = Ok r
    /\ NoDup (common_names (get_member_names example_denv "left")
                           (get_member_names example_denv "right"))
    /\ common_names (get_member_names example_denv "left")
                    (get_member_names example_denv "right") = ["a"; "b"; "c"].
Proof.
  destruct (compare_directory (example_env (Ok [])) example_denv "left" "right" None)
    as [r|e] eqn:H; [|vm_compute in H; discriminate].
  exists r. split; [reflexivity|].
  destruct (compare_directory_common_members _ _ _ _ _ _ H) as [_ [Hnd _]].
  split; [exact Hnd | vm_compute; reflexivity].
Defined.

(** *** [Stat.filter] *)

(** C6 (code bug): [INODE_RE] removes the inode number but not the
    padding [stat] writes after it, so two stat outputs that differ only in
    the width of their inode numbers still differ after filtering, and the
    stat step of [compare_meta] reports a difference. *)
Theorem stat_filter_keeps_inode_padding (env : binary_env) (denv : directory_env) :
  tool_available env "stat" = true ->
  (forall t1 t2, t1 <> t2 -> exists u, diff_texts env t1 t2 = Ok (Some u)) ->
  stat_output denv "left/d" = stat_output_left ->
  stat_output denv "right/d" = stat_output_right ->
  stat_filter (stat_device_line_left ++ nl) = tab ++ "        " ++ nl
  /\ stat_filter (stat_device_line_right ++ nl) = tab ++ "       " ++ nl
  /\ filtered_output stat_filter stat_output_left <> filtered_output stat_filter stat_output_right
  /\ exists d, stat_diff env denv "left/d" "right/d" = Ok (Some d).
Proof.
  intros Hstat Hdiff Hl Hr.
  assert (Hne : filtered_output stat_filter stat_output_left
                <> filtered_output stat_filter stat_output_right)
    by (vm_compute; discriminate).
  split; [vm_compute; reflexivity|]. split; [vm_compute; reflexivity|].
  split; [exact Hne|].
  unfold stat_diff, from_command. rewrite Hstat, Hl, Hr.
  destruct (Hdiff _ _ Hne) as [u Hu]. unfold from_text. rewrite Hu. simpl. eauto.
Qed.

Lemma stat_filter_keeps_inode_padding_witness :
  exists d, stat_diff (example_env (Ok [])) example_denv "left/d" "right/d" = Ok (Some d).
Proof.
  exact (proj2 (proj2 (proj2
           (stat_filter_keeps_inode_padding (example_env (Ok [])) example_denv eq_refl
              (example_diff_detects _) eq_refl eq_refl)))).
Defined.

(** *** [DirectoryContainer.get_member_names] *)

Lemma string_length_app (a b : string) : String.length (a ++ b) = String.length a + String.length b.
Proof. induction a as [|c a IH]; simpl; [reflexivity | now rewrite IH]. Qed.

Lemma ends_with_slash_app (a b : string) :
  b <> "" -> ends_with_slash (a ++ b) = ends_with_slash b.
Proof.
  intros Hb. induction a as [|c a IH]; [reflexivity|].
  simpl. rewrite IH. destruct a; simpl; [destruct b; [contradiction | reflexivity] | reflexivity].
Qed.

Lemma starts_with_slash_app (a b : string) :
  a <> "" -> starts_with_slash (a ++ b) = starts_with_slash a.
Proof. intros Ha. destruct a as [|c a]; [contradiction | reflexivity]. Qed.

Lemma no_slash_ends (s : string) : contains_slash s = false -> ends_with_slash s = false.
Proof.
  induction s as [|c s IH]; [reflexivity|]. simpl. intros H.
  apply orb_false_iff in H. destruct H as [H1 H2].
  destruct s; [exact H1 | apply IH, H2].
Qed.

Lemma no_slash_starts (s : string) : contains_slash s = false -> starts_with_slash s = false.
Proof.
  destruct s as [|c s]; [reflexivity|]. simpl. intros H.
  apply orb_false_iff in H. destruct H as [H1 _].
  destruct c as [[] [] [] [] [] [] [] []]; try reflexivity; discriminate.
Qed.

Lemma name_okb_spec (nm : string) :
  name_okb nm = true -> nm <> "" /\ starts_with_slash nm = false /\ ends_with_slash nm = false.
Proof.
  unfold name_okb. intros H. apply andb_true_iff in H. destruct H as [H1 H2].
  apply negb_true_iff in H1, H2. split; [now apply String.eqb_neq|].
  split; [now apply no_slash_starts | now apply no_slash_ends].
Qed.

Lemma drop_app_slash (p q : string) : drop (String.length p + 1) (p ++ "/" ++ q) = q.
Proof. induction p as [|c p IH]; [reflexivity | exact IH]. Qed.

(** A relative directory path: empty, or a non-empty path with neither a
    leading nor a trailing separator. *)
Lemma relativize_abs_path (p q : string) :
  p <> "" -> good_rel q ->
  (if String.eqb (abs_path p q) p then "" else drop (String.length p + 1) (abs_path p q)) = q.
Proof.
  intros Hp [-> | [Hq _]]; unfold abs_path.
  - simpl. now rewrite String.eqb_refl.
  - apply String.eqb_neq in Hq. rewrite Hq.
    destruct (String.eqb (p ++ "/" ++ q) p) eqn:E.
    + apply String.eqb_eq in E. apply (f_equal String.length) in E.
      rewrite string_length_app in E. simpl in E. lia.
    + apply drop_app_slash.
Qed.

Lemma py_join_plain (a b : string) :
  a <> "" -> ends_with_slash a = false -> starts_with_slash b = false ->
  py_join a b = a ++ "/" ++ b.
Proof.
  intros Ha Hea Hsb. unfold py_join. rewrite Hsb, Hea.
  apply String.eqb_neq in Ha. now rewrite Ha.
Qed.

Lemma py_join_abs_path (p q nm : string) :
  p <> "" -> ends_with_slash p = false -> good_rel q -> name_okb nm = true ->
  py_join (abs_path p q) nm = abs_path p (py_join q nm) /\ good_rel (py_join q nm).
Proof.
  intros Hp Hep Hq Hnm. destruct (name_okb_spec nm Hnm) as [Hn [Hsn Hen]].
  destruct Hq as [-> | [Hq [Hsq Heq]]].
  - unfold py_join at 2. rewrite Hsn. simpl.
    unfold abs_path. simpl. apply String.eqb_neq in Hn. rewrite Hn.
    split; [now apply py_join_plain|].
    unfold py_join. rewrite Hsn. simpl. right. apply String.eqb_neq in Hn. auto.
  - rewrite (py_join_plain q nm Hq Heq Hsn).
    assert (Hne : q ++ "/" ++ nm <> "") by (destruct q; [contradiction | discriminate]).
    split.
    + assert (Hpq : ends_with_slash (p ++ "/" ++ q) = false)
        by (rewrite !ends_with_slash_app; auto; destruct q; [contradiction | discriminate]).
      unfold abs_path. apply String.eqb_neq in Hq, Hne. rewrite Hq, Hne.
      rewrite py_join_plain; [| destruct p; [contradiction | discriminate] | exact Hpq | exact Hsn].
      rewrite !string_app_assoc. reflexivity.
    + right. split; [exact Hne|]. split.
      * rewrite starts_with_slash_app; assumption.
      * rewrite ends_with_slash_app, ends_with_slash_app; auto. discriminate.
Qed.

Lemma walk_member_names (p : string) :
  p <> "" -> ends_with_slash p = false ->
  forall n q, names_okb n = true -> good_rel q ->
  concat (map (fun '(root, _, files) =>
                 let root := if String.eqb root p then ""
                             else drop (String.length p + 1) root in
                 map (py_join root) files)
              (walk_node (abs_path p q) n))
  = member_files q n.
Proof.
  intros Hp Hep n. induction n as [fnm | nm es IH] using fsnode_ind2; intros q Hok Hq.
  - reflexivity.
  - cbn [walk_node member_files map concat].
    rewrite (relativize_abs_path p q Hp Hq). f_equal.
    cbn [names_okb] in Hok. apply andb_true_iff in Hok. destruct Hok as [_ Hok].
    induction es as [|x es IHes]; [reflexivity|].
    apply andb_true_iff in Hok. destruct Hok as [Hx Hok].
    inversion IH as [|? ? Px IHtail]; subst.
    destruct x as [fnm | dnm des].
    + apply IHes; assumption.
    + rewrite map_app, concat_app. f_equal; [|apply IHes; assumption].
      assert (Hd : name_okb dnm = true)
        by (cbn [names_okb] in Hx; apply andb_true_iff in Hx; tauto).
      destruct (py_join_abs_path p q dnm Hp Hep Hq Hd) as [Hj Hg].
      rewrite Hj. apply Px; assumption.
Qed.

(** C7 (counterexample): a directory whose listing order is [b], [a]
    gives the member names [["b"; "a"]], which are not sorted. *)
Lemma get_member_names_unsorted :
  let denv := DirectoryEnv
                (fun path => if String.eqb path "d"
                             then Some (FsDir "d" [FsFile "b"; FsFile "a"]) else None)
                (fun path => path) (fun _ => "") (fun _ => "") (fun _ => Ok "")
                (fun _ _ _ => Ok None) in
  get_member_names denv "d" = ["b"; "a"]
  /\ ~ Sorted (fun a b => String.leb a b = true) (get_member_names denv "d").
Proof.
  intros denv. assert (E : get_member_names denv "d" = ["b"; "a"]) by (vm_compute; reflexivity).
  split; [exact E|]. rewrite E. intros H.
  inversion H as [|? ? _ Hrel]; subst. inversion Hrel; subst. discriminate.
Qed.

(** C7 (amended): for a directory path without a trailing separator,
    [DirectoryContainer.get_member_names] returns the paths, relative to
    the directory, of all its descendant non-directory entries in the
    top-down order of [os.walk]: the directory's own files in listing
    order, then the files below each subdirectory, subdirectories taken in
    listing order. The result is not sorted;
    [FilesystemDirectory.compare] sorts the names it uses. *)
Theorem get_member_names_walk_order (denv : directory_env) (p : string) (n : fsnode) :
  tree_at denv p = Some n -> p <> "" -> ends_with_slash p = false -> names_okb n = true ->
  get_member_names denv p = member_files "" n.
Proof.
  intros Ht Hp Hep Hok. unfold get_member_names, os_walk. rewrite Ht.
  exact (walk_member_names p Hp Hep n "" Hok (or_introl eq_refl)).
Qed.

Lemma get_member_names_walk_order_witness :
  get_member_names example_denv "left"
  = member_files "" (FsDir "left" [FsFile "b"; FsFile "a"; FsFile "only_left.txt";
                                   FsDir "sub" [FsFile "z"]; FsFile "c"]).
Proof.
  apply get_member_names_walk_order; [reflexivity | discriminate | reflexivity | reflexivity].
Defined.

(** ** Further properties of the code *)

Lemma count_char_app c a b : count_char c (a ++ b) = count_char c a + count_char c b.
Proof. induction a as [|x a IH]; simpl; [reflexivity|rewrite IH; lia]. Qed.

Lemma hexlify_length l : String.length (hexlify l) = 2 * length l.
Proof. induction l as [|b l IH]; [reflexivity|]. cbn [hexlify]. rewrite string_length_app, IH. simpl. lia. Qed.

Lemma hexlify_no_newline l : count_char "010" (hexlify l) = 0.
Proof.
  induction l as [|b l IH]; [reflexivity|]. cbn [hexlify]. rewrite count_char_app, IH.
  unfold hexlify_byte. cbn [count_char]. rewrite !hex_digit_not_newline. reflexivity.
Qed.


Lemma hexdump_lines_shape (fuel : nat) (l : list Byte.byte) :
  length l <= fuel ->
  String.length (hexdump_lines fuel l) = 2 * length l + (length l + 31) / 32
  /\ count_char "010" (hexdump_lines fuel l) = (length l + 31) / 32.
Proof.
  revert l; induction fuel as [|fuel IH]; intros l Hl.
  - destruct l; [split; reflexivity | simpl in Hl; lia].
  - destruct l as [|b l']; [split; reflexivity|].
    remember (b :: l') as l eqn:El.
    assert (Hn : 1 <= length l) by (subst; simpl; lia).
    assert (Hs : length (skipn 32 l) <= fuel) by (rewrite length_skipn; subst; simpl in *; lia).
    destruct (IH _ Hs) as [IH1 IH2].
    replace (hexdump_lines (S fuel) l)
      with (hexlify (firstn 32 l) ++ String "010" (hexdump_lines fuel (skipn 32 l)))
      by (subst; reflexivity).
    rewrite string_length_app, count_char_app, hexlify_length, hexlify_no_newline.
    cbn [String.length count_char]. rewrite IH1, IH2, length_firstn, length_skipn, Ascii.eqb_refl.
    clear -Hn. remember (length l) as n. clear Heqn.
    destruct (Nat.le_gt_cases n 32) as [Hle|Hgt].
    + replace (n - 32) with 0 by lia. replace (Nat.min 32 n) with n by lia.
      replace ((0 + 31) / 32) with 0 by reflexivity.
      replace ((n + 31) / 32) with 1
        by (apply Nat.div_unique with (r := n - 1); lia).
      split; lia.
    + replace ((n + 31) / 32) with (S ((n - 32 + 31) / 32)).
      * replace (Nat.min 32 n) with 32 by lia. split; lia.
      * replace (n + 31) with ((n - 32 + 31) + 1 * 32) by lia.
        rewrite Nat.div_add by lia. lia.
Qed.

(** [hexdump_fallback] loses nothing: decoding the hex dump (pairs of hex
    digits, newlines skipped) gives back the bytes of the file. *)
Theorem hexdump_fallback_decodes (env : binary_env) (p : string) :
  unhex (hexdump_fallback env p) = read_file env p.
Proof. unfold hexdump_fallback. apply unhex_hexdump_lines. lia. Qed.

(** [hexdump_fallback] writes one line per 32-byte block: for [n] bytes,
    [2 n] hex digits and [ceil (n / 32)] newlines, so an empty file gives
    the empty string. *)
Theorem hexdump_fallback_layout (env : binary_env) (p : string) :
  String.length (hexdump_fallback env p)
    = 2 * length (read_file env p) + (length (read_file env p) + 31) / 32
  /\ count_char "010" (hexdump_fallback env p) = (length (read_file env p) + 31) / 32.
Proof. unfold hexdump_fallback. apply hexdump_lines_shape. lia. Qed.



(** [compare_binary_files] without [xxd]: when [diff] reports exactly the
    differing texts, the Python hex dump fallback gives no difference
    exactly when the two files have the same bytes; a difference it gives
    carries a diff, no children, and the single comment saying that [xxd]
    is not available. *)
Theorem compare_binary_files_hexlify_fallback (env : binary_env) (f1 : real_file) (f2 : entity)
    (source : option string) (c : string) :
  xxd_from_command env (file_path f1) (entity_path f2) (file_name f1) (entity_name f2)
    = Raise (RequiredToolNotFound c) ->
  (forall t1 t2, (t1 = t2 -> diff_texts env t1 t2 = Ok None)
                 /\ (t1 <> t2 -> exists u, diff_texts env t1 t2 = Ok (Some u))) ->
  (compare_binary_files env f1 f2 source = Ok None
     <-> read_file env (file_path f1) = read_file env (entity_path f2))
  /\ (forall d, compare_binary_files env f1 f2 source = Ok (Some d) ->
       unified_diff d <> None
       /\ comments d = ["xxd not available in path. Falling back to Python hexlify." ++ nl]
       /\ details d = []).
Proof.
  intros Hx Hdiff. unfold compare_binary_files. rewrite Hx. unfold from_text.
  set (h1 := hexdump_fallback env (file_path f1)).
  set (h2 := hexdump_fallback env (entity_path f2)).
  destruct (String.eqb_spec h1 h2) as [E|E].
  - rewrite (proj1 (Hdiff h1 h2) E). simpl. split.
    + split; [intros _; now apply hexdump_fallback_injective | reflexivity].
    + intros d H. discriminate.
  - destruct (proj2 (Hdiff h1 h2) E) as [u Hu]. rewrite Hu. simpl. split.
    + split; [discriminate|]. intros Hr. exfalso. apply E. unfold h1, h2, hexdump_fallback.
      now rewrite Hr.
    + intros d H. injection H as <-. destruct source; simpl; repeat split; discriminate.
Qed.

Lemma compare_binary_files_hexlify_fallback_witness :
  compare_binary_files (example_env (Ok [])) zip_a (Real zip_a) None = Ok None.
Proof.
  assert (Hd : forall t1 t2,
             (t1 = t2 -> diff_texts (example_env (Ok [])) t1 t2 = Ok None)
             /\ (t1 <> t2 -> exists u, diff_texts (example_env (Ok [])) t1 t2 = Ok (Some u))).
  { intros t1 t2. cbn [diff_texts example_env].
    destruct (String.eqb_spec t1 t2) as [E|E].
    - split; [reflexivity | intros N; contradiction].
    - split; [intros Q; contradiction | exists "@@ -1 +1 @@"; reflexivity]. }
  destruct (compare_binary_files_hexlify_fallback (example_env (Ok [])) zip_a (Real zip_a) None
              "xxd" eq_refl Hd) as [H _].
  apply H. reflexivity.
Defined.







Lemma best_effort_no_tool_missing (step : res (option difference)) (c : string) :
  best_effort step <> Raise (RequiredToolNotFound c).
Proof. destruct step as [d|[]]; discriminate. Qed.

Lemma filter_some_app {A} (x y : list (option A)) :
  filter_some (x ++ y) = (filter_some x ++ filter_some y)%list.
Proof. induction x as [|[a|] x IH]; simpl; [reflexivity | f_equal; exact IH | exact IH]. Qed.

Lemma best_effort_at_most_one (step : res (option difference)) (s : list (option difference)) :
  best_effort step = Ok s -> length (filter_some s) <= 1.
Proof.
  destruct step as [[d|]|[]]; simpl; intros H; try discriminate;
    injection H as <-; simpl; lia.
Qed.

Lemma compare_meta_steps (env : binary_env) (denv : directory_env) (p1 p2 : string)
    (l : list difference) :
  compare_meta env denv p1 p2 = Ok l ->
  exists s m g,
    best_effort (stat_diff env denv p1 p2) = Ok s
    /\ best_effort (lsattr_diff env denv p1 p2) = Ok m
    /\ best_effort (getfacl_diff env denv p1 p2) = Ok g
    /\ l = (filter_some s ++ filter_some m ++ filter_some g)%list.
Proof.
  unfold compare_meta.
  destruct (best_effort (stat_diff env denv p1 p2)) as [s|e]; [|discriminate]. cbn [bind].
  destruct (best_effort (lsattr_diff env denv p1 p2)) as [m|e]; [|discriminate]. cbn [bind].
  destruct (best_effort (getfacl_diff env denv p1 p2)) as [g|e]; [|discriminate]. cbn [bind].
  intros H. injection H as <-. exists s, m, g.
  rewrite !filter_some_app. repeat split; reflexivity.
Qed.

Lemma compare_meta_without_step (env : binary_env) (denv : directory_env) (p1 p2 t : string)
    (l : list difference) :
  In t ["stat"; "lsattr"; "getfacl"] ->
  compare_meta env denv p1 p2 = Ok l ->
  exists a x b, l = (a ++ x ++ b)%list /\ length x <= 1
    /\ compare_meta (without_tool t env) denv p1 p2 = Ok (a ++ b)%list.
Proof.
  intros Ht H.
  destruct (compare_meta_steps _ _ _ _ _ H) as (s & m & g & Es & Em & Eg & ->).
  destruct Ht as [<-|[<-|[<-|[]]]].
  - exists [], (filter_some s), (filter_some m ++ filter_some g)%list.
    split; [reflexivity|]. split; [exact (best_effort_at_most_one _ _ Es)|].
    unfold compare_meta.
    change (best_effort (stat_diff (without_tool "stat" env) denv p1 p2)) with
      (Ok (@nil (option difference)) : res (list (option difference))).
    change (best_effort (lsattr_diff (without_tool "stat" env) denv p1 p2))
      with (best_effort (lsattr_diff env denv p1 p2)).
    change (best_effort (getfacl_diff (without_tool "stat" env) denv p1 p2))
      with (best_effort (getfacl_diff env denv p1 p2)).
    rewrite Em, Eg. cbn [bind]. rewrite !filter_some_app. reflexivity.
  - exists (filter_some s), (filter_some m), (filter_some g).
    split; [reflexivity|]. split; [exact (best_effort_at_most_one _ _ Em)|].
    unfold compare_meta.
    change (best_effort (stat_diff (without_tool "lsattr" env) denv p1 p2))
      with (best_effort (stat_diff env denv p1 p2)).
    change (best_effort (lsattr_diff (without_tool "lsattr" env) denv p1 p2)) with
      (Ok (@nil (option difference)) : res (list (option difference))).
    change (best_effort (getfacl_diff (without_tool "lsattr" env) denv p1 p2))
      with (best_effort (getfacl_diff env denv p1 p2)).
    rewrite Es, Eg. cbn [bind]. rewrite !filter_some_app. reflexivity.
  - exists (filter_some s ++ filter_some m)%list, (filter_some g), [].
    split; [rewrite app_nil_r, app_assoc; reflexivity|].
    split; [exact (best_effort_at_most_one _ _ Eg)|].
    unfold compare_meta.
    change (best_effort (stat_diff (without_tool "getfacl" env) denv p1 p2))
      with (best_effort (stat_diff env denv p1 p2)).
    change (best_effort (lsattr_diff (without_tool "getfacl" env) denv p1 p2))
      with (best_effort (lsattr_diff env denv p1 p2)).
    change (best_effort (getfacl_diff (without_tool "getfacl" env) denv p1 p2)) with
      (Ok (@nil (option difference)) : res (list (option difference))).
    rewrite Es, Em. cbn [bind]. rewrite !filter_some_app, !app_nil_r. reflexivity.
Qed.

(** [compare_meta] never raises [RequiredToolNotFound]; with none of
    [stat], [lsattr] and [getfacl] installed the result is the empty list;
    and uninstalling one of the three only drops its own step: the result
    loses at most the one difference of that step and keeps the others, in
    order. *)
Theorem compare_meta_best_effort (env : binary_env) (denv : directory_env) (path1 path2 : string) :
  (forall c, compare_meta env denv path1 path2 <> Raise (RequiredToolNotFound c))
  /\ (tool_available env "stat" = false -> tool_available env "lsattr" = false ->
      tool_available env "getfacl" = false -> compare_meta env denv path1 path2 = Ok [])
  /\ (forall t l, In t ["stat"; "lsattr"; "getfacl"] ->
      compare_meta env denv path1 path2 = Ok l ->
      exists a x b, l = (a ++ x ++ b)%list /\ length x <= 1
        /\ compare_meta (without_tool t env) denv path1 path2 = Ok (a ++ b)%list).
Proof.
  split; [|split; [|intros t l; apply compare_meta_without_step]].
  - intros c. unfold compare_meta.
    destruct (best_effort (stat_diff env denv path1 path2)) as [s|e] eqn:Es;
      [|intros H; cbn [bind] in H; injection H as ->; eapply best_effort_no_tool_missing; exact Es].
    cbn [bind].
    destruct (best_effort (lsattr_diff env denv path1 path2)) as [l|e] eqn:El;
      [|intros H; cbn [bind] in H; injection H as ->; eapply best_effort_no_tool_missing; exact El].
    cbn [bind].
    destruct (best_effort (getfacl_diff env denv path1 path2)) as [g|e] eqn:Eg;
      [|intros H; cbn [bind] in H; injection H as ->; eapply best_effort_no_tool_missing; exact Eg].
    discriminate.
  - intros Hs Hl Hg. unfold compare_meta, stat_diff, getfacl_diff, from_command, lsattr_diff, lsattr.
    rewrite Hs, Hl, Hg. reflexivity.
Qed.

Lemma compare_meta_best_effort_witness :
  compare_meta example_env_no_meta_tools example_denv "left/d" "right/d" = Ok []
  /\ exists l a x b,
       compare_meta (example_env (Ok [])) example_denv "left/d" "right/d" = Ok l
       /\ l <> [] /\ l = (a ++ x ++ b)%list /\ length x <= 1
       /\ compare_meta (without_tool "stat" (example_env (Ok []))) example_denv
            "left/d" "right/d" = Ok (a ++ b)%list.
Proof.
  split.
  - apply (proj1 (proj2 (compare_meta_best_effort example_env_no_meta_tools example_denv
                           "left/d" "right/d"))); reflexivity.
  - destruct (compare_meta (example_env (Ok [])) example_denv "left/d" "right/d")
      as [l|e] eqn:H; [|vm_compute in H; discriminate].
    destruct (proj2 (proj2 (compare_meta_best_effort (example_env (Ok [])) example_denv
                              "left/d" "right/d")) "stat" l (or_introl eq_refl) H)
      as (a & x & b & El & Hx & Ew).
    exists l, a, x, b. split; [reflexivity|]. split; [|split; [exact El | split; [exact Hx | exact Ew]]].
    vm_compute in H. injection H as <-. discriminate.
Defined.




Lemma all_chars_app p a b : all_chars p (a ++ b) = all_chars p a && all_chars p b.
Proof. induction a as [|c a IH]; simpl; [reflexivity|]. rewrite IH. apply andb_assoc. Qed.

Lemma all_chars_impl (p q : ascii -> bool) s :
  (forall c, p c = true -> q c = true) -> all_chars p s = true -> all_chars q s = true.
Proof.
  intros Hpq. induction s as [|c s IH]; simpl; [reflexivity|].
  intros H. apply andb_true_iff in H. destruct H as [H1 H2]. now rewrite Hpq, IH.
Qed.

Lemma skip_while_app p q r : all_chars p q = true -> skip_while p (q ++ r) = skip_while p r.
Proof.
  induction q as [|c q IH]; simpl; [reflexivity|].
  intros H. apply andb_true_iff in H. destruct H as [H1 H2]. rewrite H1. now apply IH.
Qed.

Lemma strip_prefix_app lit r : strip_prefix lit (lit ++ r) = Some r.
Proof. induction lit as [|c lit IH]; simpl; [reflexivity|]. now rewrite Ascii.eqb_refl. Qed.

Lemma strip_prefix_some lit s r : strip_prefix lit s = Some r -> s = lit ++ r.
Proof.
  revert s; induction lit as [|c lit IH]; intros s H.
  - simpl in H. now injection H as ->.
  - destruct s as [|d s]; simpl in H; [discriminate|].
    destruct (Ascii.eqb_spec c d) as [->|]; [|discriminate]. simpl. f_equal. now apply IH.
Qed.

Lemma skip_while_some p s : exists q, all_chars p q = true /\ s = q ++ skip_while p s.
Proof.
  induction s as [|c s IH]; [exists ""; split; reflexivity|].
  simpl. destruct (p c) eqn:Hc.
  - destruct IH as [q [Hq Hs]]. exists (String c q). simpl. rewrite Hc, Hq. split; [reflexivity|].
    now rewrite <- Hs.
  - exists "". split; reflexivity.
Qed.

Lemma skip_many1_some p s r :
  skip_many1 p s = Some r -> exists q, q <> "" /\ all_chars p q = true /\ s = q ++ r.
Proof.
  destruct s as [|c s]; simpl; [discriminate|]. destruct (p c) eqn:Hc; [|discriminate].
  intros H. injection H as <-. destruct (skip_while_some p s) as [q [Hq Hs]].
  exists (String c q). split; [discriminate|]. simpl. rewrite Hc, Hq. split; [reflexivity|].
  now rewrite <- Hs.
Qed.

(** sub_all *)
Section SubAll.
Variable m : string -> option string.
Hypothesis m_shrinks : forall s r, m s = Some r -> String.length r < String.length s.

Lemma sub_all_fuel_enough (f1 f2 : nat) (s : string) :
  String.length s <= f1 -> String.length s <= f2 -> sub_all_fuel f1 m s = sub_all_fuel f2 m s.
Proof.
  revert f2 s; induction f1 as [|f1 IH]; intros f2 s H1 H2.
  - destruct s; [|simpl in H1; lia]. destruct f2; reflexivity.
  - destruct s as [|c s]; [destruct f2; reflexivity|].
    destruct f2 as [|f2]; [simpl in H2; lia|].
    simpl. destruct (m (String c s)) as [r|] eqn:Em.
    + apply m_shrinks in Em. simpl in *. apply IH; lia.
    + simpl in *. f_equal. apply IH; lia.
Qed.

Lemma sub_all_cons (c : ascii) (s : string) :
  sub_all m (String c s)
  = match m (String c s) with
    | Some r => sub_all m r
    | None => String c (sub_all m s)
    end.
Proof.
  unfold sub_all. cbn [String.length sub_all_fuel].
  destruct (m (String c s)) as [r|] eqn:Em; [|reflexivity].
  apply m_shrinks in Em. simpl in Em. apply sub_all_fuel_enough; lia.
Qed.

Variable m_head : ascii.
Hypothesis m_needs_head : forall c s, m (String c s) <> None -> c = m_head.

Lemma sub_all_prefix (p r : string) :
  all_chars (fun c => negb (Ascii.eqb c m_head)) p = true -> sub_all m (p ++ r) = p ++ sub_all m r.
Proof.
  induction p as [|c p IH]; simpl; [reflexivity|].
  intros H. apply andb_true_iff in H. destruct H as [H1 H2].
  rewrite sub_all_cons. destruct (m (String c (p ++ r))) as [x|] eqn:Em.
  - exfalso. assert (Hc : c = m_head) by (apply (m_needs_head c (p ++ r)); rewrite Em; discriminate).
    subst. now rewrite Ascii.eqb_refl in H1.
  - f_equal. now apply IH.
Qed.
End SubAll.


Lemma eats_line_shrinks m : eats_line m -> forall s r, m s = Some r -> String.length r < String.length s.
Proof.
  intros H s r Hm. destruct (H s r Hm) as [p [Hp [_ ->]]]. rewrite string_length_app.
  destruct p; [contradiction | simpl; lia].
Qed.

Lemma split_line (p r x : string) :
  p <> "" -> all_chars not_newline p = true -> all_chars not_newline x = true ->
  p ++ r = x ++ nl ->
  exists x', r = x' ++ nl /\ all_chars not_newline x' = true /\ String.length x' < String.length x.
Proof.
  revert x; induction p as [|c p IH]; intros x Hp Hnp Hnx E; [contradiction|].
  destruct x as [|d x].
  - simpl in E. injection E as Ec E'. subst c. discriminate Hnp.
  - simpl in E. injection E as <- E'. simpl in Hnp, Hnx.
    apply andb_true_iff in Hnp, Hnx. destruct Hnp as [_ Hnp], Hnx as [_ Hnx].
    destruct p as [|c' p'].
    + simpl in E'. subst r. exists x. simpl. split; [reflexivity|]. split; [exact Hnx | lia].
    + destruct (IH x ltac:(discriminate) Hnp Hnx E') as [x' [-> [Hx' Hl]]].
      exists x'. simpl. split; [reflexivity|]. split; [exact Hx' | lia].
Qed.

Lemma sub_all_line m : eats_line m ->
  forall x, all_chars not_newline x = true ->
  exists y, all_chars not_newline y = true /\ sub_all m (x ++ nl) = y ++ nl.
Proof.
  intros Hm x. remember (String.length x) as n eqn:En. revert x En.
  induction n as [n IH] using (well_founded_induction lt_wf). intros x En Hx.
  pose proof (eats_line_shrinks m Hm) as Hs.
  destruct x as [|c x'].
  - exists "". split; [reflexivity|]. simpl. change (String "010" "") with (String "010" "" ++ "").
    unfold nl. rewrite (sub_all_cons m Hs). destruct (m (String "010" "")) as [r|] eqn:E.
    + destruct (Hm _ _ E) as [p [Hp [Hnp Hpr]]]. destruct p as [|c p]; [contradiction|].
      simpl in Hpr. injection Hpr as <- _. discriminate Hnp.
    + reflexivity.
  - cbn [append]. rewrite (sub_all_cons m Hs). destruct (m (String c (x' ++ nl))) as [r|] eqn:E.
    + destruct (Hm _ _ E) as [p [Hp [Hnp Hpr]]].
      destruct (split_line p r (String c x') Hp Hnp Hx (eq_sym Hpr)) as [x'' [-> [Hx'' Hl]]].
      apply (IH (String.length x'')); [lia | reflexivity | exact Hx''].
    + simpl in Hx. apply andb_true_iff in Hx. destruct Hx as [Hc Hx'].
      destruct (IH (String.length x') ltac:(simpl in En; lia) x' eq_refl Hx') as [y [Hy ->]].
      exists (String c y). simpl. rewrite Hc, Hy. split; reflexivity.
Qed.

Lemma eats_strip_then (lit : string) (k : string -> option string) :
  lit <> "" -> all_chars not_newline lit = true ->
  (forall s r, k s = Some r -> exists q, all_chars not_newline q = true /\ s = q ++ r) ->
  eats_line (fun s => opt_bind (strip_prefix lit s) k).
Proof.
  intros Hl Hnl Hk s r H. destruct (strip_prefix lit s) as [t|] eqn:Et; [|discriminate].
  simpl in H. apply strip_prefix_some in Et. destruct (Hk t r H) as [q [Hq ->]].
  exists (lit ++ q). split; [destruct lit; [contradiction | discriminate]|].
  rewrite all_chars_app, Hnl, Hq. split; [reflexivity|]. subst s. symmetry. apply string_app_assoc.
Qed.


Lemma eats_any_bind k1 k2 : eats_any k1 -> eats_any k2 -> eats_any (fun s => opt_bind (k1 s) k2).
Proof.
  intros H1 H2 s r H. destruct (k1 s) as [t|] eqn:Et; [|discriminate]. simpl in H.
  destruct (H1 s t Et) as [q1 [Hq1 ->]]. destruct (H2 t r H) as [q2 [Hq2 ->]].
  exists (q1 ++ q2). rewrite all_chars_app, Hq1, Hq2. split; [reflexivity|]. symmetry. apply string_app_assoc.
Qed.

Lemma eats_any_strip lit : all_chars not_newline lit = true -> eats_any (strip_prefix lit).
Proof. intros Hl s r H. apply strip_prefix_some in H. subst. eauto. Qed.

Lemma eats_any_many1 p : (forall c, p c = true -> not_newline c = true) -> eats_any (skip_many1 p).
Proof.
  intros Hp s r H. destruct (skip_many1_some p s r H) as [q [_ [Hq ->]]].
  exists q. split; [|reflexivity]. eapply all_chars_impl; eassumption.
Qed.

Lemma digit_not_newline c : is_digit c = true -> not_newline c = true.
Proof. intros H. unfold not_newline. destruct (Ascii.eqb_spec c "010"); [subst; discriminate | reflexivity]. Qed.

Lemma hex_digit_char_not_newline c : is_hex_digit c = true -> not_newline c = true.
Proof. intros H. unfold not_newline. destruct (Ascii.eqb_spec c "010"); [subst; discriminate | reflexivity]. Qed.

Lemma match_device_re_eats : eats_line match_device_re.
Proof.
  unfold match_device_re. apply eats_strip_then; [discriminate | reflexivity|].
  repeat (apply eats_any_bind || apply eats_any_strip || apply eats_any_many1);
    first [reflexivity | exact hex_digit_char_not_newline | exact digit_not_newline].
Qed.

Lemma match_inode_re_eats : eats_line match_inode_re.
Proof.
  unfold match_inode_re. apply eats_strip_then; [discriminate | reflexivity|].
  apply eats_any_many1, digit_not_newline.
Qed.

Lemma match_links_re_eats : eats_line match_links_re.
Proof.
  unfold match_links_re. apply eats_strip_then; [discriminate | reflexivity|].
  apply eats_any_many1, digit_not_newline.
Qed.


Lemma dsd_line x : all_chars not_newline x = true -> dot_star_dollar (x ++ nl) = Some nl.
Proof.
  induction x as [|c x IH]; [reflexivity|]. simpl. intros H. apply andb_true_iff in H.
  destruct H as [H1 H2]. unfold not_newline in H1. apply negb_true_iff in H1. rewrite H1.
  now apply IH.
Qed.

Lemma ends_line_dsd : ends_line dot_star_dollar.
Proof. intros x r Hx H. rewrite dsd_line in H by exact Hx. now injection H. Qed.

Lemma eats_any_line (q t x : string) :
  all_chars not_newline q = true -> all_chars not_newline x = true -> q ++ t = x ++ nl ->
  exists x', all_chars not_newline x' = true /\ t = x' ++ nl.
Proof.
  revert x; induction q as [|c q IH]; intros x Hq Hx E.
  - simpl in E. subst. eauto.
  - destruct x as [|d x].
    + simpl in E. injection E as Ec _. subst c. discriminate Hq.
    + simpl in E. injection E as Ec E. subst d. simpl in Hq, Hx. apply andb_true_iff in Hq, Hx.
      eapply IH; [apply Hq | apply Hx | exact E].
Qed.

Lemma ends_line_bind k1 k2 : eats_any k1 -> ends_line k2 -> ends_line (fun s => opt_bind (k1 s) k2).
Proof.
  intros H1 H2 x r Hx H. destruct (k1 (x ++ nl)) as [t|] eqn:Et; [|discriminate]. simpl in H.
  destruct (H1 _ _ Et) as [q [Hq Hqt]].
  destruct (eats_any_line q t x Hq Hx (eq_sym Hqt)) as [x' [Hx' ->]].
  exact (H2 x' r Hx' H).
Qed.

Lemma eats_any_digit : eats_any match_digit.
Proof.
  intros s r H. destruct s as [|c s]; simpl in H; [discriminate|].
  destruct (is_digit c) eqn:Hc; [|discriminate]. injection H as <-.
  exists (String c ""). simpl. rewrite (digit_not_newline c Hc). split; reflexivity.
Qed.

Lemma ends_line_date_rest : ends_line match_date_rest.
Proof.
  unfold match_date_rest.
  repeat (apply ends_line_bind; [first [apply eats_any_digit | apply eats_any_strip; reflexivity]|]).
  apply ends_line_dsd.
Qed.

Lemma skip_while_line p x :
  all_chars not_newline x = true ->
  skip_while p (x ++ nl) = ""
  \/ exists x', all_chars not_newline x' = true /\ skip_while p (x ++ nl) = x' ++ nl.
Proof.
  induction x as [|c x IH]; intros Hx.
  - simpl. destruct (p "010"%char); [now left | right; exists ""; split; reflexivity].
  - simpl in Hx. apply andb_true_iff in Hx. destruct Hx as [Hc Hx].
    simpl. destruct (p c).
    + now apply IH.
    + right. exists (String c x). simpl. rewrite Hc, Hx. split; reflexivity.
Qed.

Lemma ends_line_file_re : ends_line match_file_re.
Proof.
  intros x r Hx H. unfold match_file_re in H.
  destruct (skip_while_line is_space x Hx) as [E | [x' [Hx' E]]]; rewrite E in H.
  - discriminate H.
  - eapply (ends_line_bind (strip_prefix "File:") dot_star_dollar); [| apply ends_line_dsd | exact Hx' | exact H].
    apply eats_any_strip. reflexivity.
Qed.

Lemma ends_line_access : ends_line match_access_time_re.
Proof.
  apply ends_line_bind; [apply eats_any_strip; reflexivity | apply ends_line_date_rest].
Qed.

Lemma ends_line_change : ends_line match_change_time_re.
Proof.
  apply ends_line_bind; [apply eats_any_strip; reflexivity | apply ends_line_date_rest].
Qed.

Lemma sub_anchored_line m : ends_line m -> forall x, all_chars not_newline x = true ->
  exists y, all_chars not_newline y = true /\ sub_anchored m (x ++ nl) = y ++ nl.
Proof.
  intros Hm x Hx. unfold sub_anchored. destruct (m (x ++ nl)) as [r|] eqn:E.
  - rewrite (Hm x r Hx E). exists "". split; reflexivity.
  - exists x. split; [exact Hx | reflexivity].
Qed.

(** [Stat.filter] maps a line to a line: the filtered text of a
    newline-terminated ASCII line is again a single newline-terminated
    line. (On a line that is not valid UTF-8, [line.decode('utf-8')]
    raises [UnicodeDecodeError]; ASCII lines are always decoded.) *)
Theorem stat_filter_keeps_lines (x : string) :
  all_chars is_ascii_char x = true -> all_chars not_newline x = true ->
  exists y, all_chars not_newline y = true /\ stat_filter (x ++ nl) = y ++ nl.
Proof.
  intros _ Hx. unfold stat_filter.
  destruct (sub_anchored_line _ ends_line_file_re x Hx) as [y1 [H1 ->]].
  destruct (sub_all_line _ match_device_re_eats y1 H1) as [y2 [H2 ->]].
  destruct (sub_all_line _ match_inode_re_eats y2 H2) as [y3 [H3 ->]].
  destruct (sub_all_line _ match_links_re_eats y3 H3) as [y4 [H4 ->]].
  destruct (sub_anchored_line _ ends_line_access y4 H4) as [y5 [H5 ->]].
  exact (sub_anchored_line _ ends_line_change y5 H5).
Qed.

Lemma stat_filter_keeps_lines_witness :
  exists y, all_chars not_newline y = true
            /\ stat_filter (stat_device_line_left ++ nl) = y ++ nl.
Proof.
  apply stat_filter_keeps_lines; vm_compute; reflexivity.
Defined.

Lemma match_device_re_head c s : match_device_re (String c s) <> None -> c = "D"%char.
Proof.
  unfold match_device_re. cbn [strip_prefix]. destruct (Ascii.eqb "D" c) eqn:E;
    [apply Ascii.eqb_eq in E; auto | intros H; now contradict H].
Qed.

Lemma match_inode_re_head c s : match_inode_re (String c s) <> None -> c = "I"%char.
Proof.
  unfold match_inode_re. cbn [strip_prefix]. destruct (Ascii.eqb "I" c) eqn:E;
    [apply Ascii.eqb_eq in E; auto | intros H; now contradict H].
Qed.

Lemma match_links_re_head c s : match_links_re (String c s) <> None -> c = "L"%char.
Proof.
  unfold match_links_re. cbn [strip_prefix]. destruct (Ascii.eqb "L" c) eqn:E;
    [apply Ascii.eqb_eq in E; auto | intros H; now contradict H].
Qed.

Lemma digits_avoid (X : ascii) s :
  is_digit X = false -> all_chars is_digit s = true -> all_chars (fun c => negb (Ascii.eqb c X)) s = true.
Proof.
  intros HX. apply all_chars_impl. intros c Hc. destruct (Ascii.eqb_spec c X); [subst; congruence | reflexivity].
Qed.

Lemma match_date_rest_ok (y mo d r : string) :
  String.length y = 4 -> String.length mo = 2 -> String.length d = 2 ->
  all_chars is_digit (y ++ mo ++ d) = true ->
  match_date_rest (y ++ "-" ++ mo ++ "-" ++ d ++ r) = dot_star_dollar r.
Proof.
  intros Hy Hm Hd Hdig.
  destruct y as [|y1 [|y2 [|y3 [|y4 [|]]]]]; simpl in Hy; try discriminate.
  destruct mo as [|m1 [|m2 [|]]]; simpl in Hm; try discriminate.
  destruct d as [|d1 [|d2 [|]]]; simpl in Hd; try discriminate.
  simpl in Hdig. repeat rewrite andb_true_iff in Hdig.
  destruct Hdig as [E1 [E2 [E3 [E4 [E5 [E6 [E7 [E8 _]]]]]]]].
  unfold match_date_rest, match_digit.
  repeat progress (cbn beta iota delta [append opt_bind strip_prefix];
                   rewrite ?E1, ?E2, ?E3, ?E4, ?E5, ?E6, ?E7, ?E8, ?Ascii.eqb_refl).
  reflexivity.
Qed.

(** [FILE_RE] erases the [File:] line of [stat] up to its newline,
    whatever the ASCII path and the indentation. *)
Theorem stat_filter_file_line (ws s : string) :
  all_chars (fun c => Ascii.eqb c " ") ws = true ->
  all_chars is_ascii_char s = true -> all_chars not_newline s = true ->
  stat_filter (ws ++ "File:" ++ s ++ nl) = nl.
Proof.
  intros Hws _ Hs. unfold stat_filter.
  replace (sub_anchored match_file_re (ws ++ "File:" ++ s ++ nl)) with nl.
  - reflexivity.
  - unfold sub_anchored, match_file_re.
    rewrite skip_while_app
      by (eapply all_chars_impl; [|exact Hws]; intros c Hc; apply Ascii.eqb_eq in Hc; now subst).
    simpl. rewrite dsd_line by exact Hs. reflexivity.
Qed.

Lemma stat_filter_file_line_witness :
  stat_filter ("  " ++ "File:" ++ " 'left/d'" ++ nl) = nl.
Proof.
  apply stat_filter_file_line; reflexivity.
Defined.

(** [ACCESS_TIME_RE] and [CHANGE_TIME_RE] erase the [Access:] and [Change:]
    timestamp lines of [stat] up to their newline. *)
Theorem stat_filter_time_lines (y mo d s : string) :
  String.length y = 4 -> String.length mo = 2 -> String.length d = 2 ->
  all_chars is_digit (y ++ mo ++ d) = true -> all_chars not_newline s = true ->
  stat_filter ("Access: " ++ y ++ "-" ++ mo ++ "-" ++ d ++ s ++ nl) = nl
  /\ stat_filter ("Change: " ++ y ++ "-" ++ mo ++ "-" ++ d ++ s ++ nl) = nl.
Proof.
  intros Hy Hm Hd Hdig Hs.
  assert (Hpre : forall (lit : string) (X : ascii),
    is_digit X = false -> Ascii.eqb "-" X = false ->
    all_chars (fun c => negb (Ascii.eqb c X)) lit = true ->
    all_chars (fun c => negb (Ascii.eqb c X)) (lit ++ y ++ "-" ++ mo ++ "-" ++ d) = true).
  { intros lit X HX HX' Hl.
    rewrite !all_chars_app in Hdig. apply andb_true_iff in Hdig as [Dy Hdig].
    apply andb_true_iff in Hdig as [Dm Dd].
    rewrite !all_chars_app, Hl, (digits_avoid X y HX Dy), (digits_avoid X mo HX Dm),
      (digits_avoid X d HX Dd).
    cbn [all_chars]. rewrite HX'. reflexivity. }
  assert (Hsplit : forall lit : string,
    lit ++ y ++ "-" ++ mo ++ "-" ++ d ++ s ++ nl = (lit ++ y ++ "-" ++ mo ++ "-" ++ d) ++ (s ++ nl))
    by (intros; rewrite !string_app_assoc; reflexivity).
  assert (Hsubs : forall lit : string,
    all_chars (fun c => negb (Ascii.eqb c "D")) lit = true ->
    all_chars (fun c => negb (Ascii.eqb c "I")) lit = true ->
    all_chars (fun c => negb (Ascii.eqb c "L")) lit = true ->
    exists y', all_chars not_newline y' = true /\
      sub_all match_links_re (sub_all match_inode_re (sub_all match_device_re
        (lit ++ y ++ "-" ++ mo ++ "-" ++ d ++ s ++ nl)))
      = lit ++ y ++ "-" ++ mo ++ "-" ++ d ++ y' ++ nl).
  { intros lit HD HI HL. rewrite Hsplit.
    rewrite (sub_all_prefix match_device_re (eats_line_shrinks _ match_device_re_eats) "D"
               match_device_re_head) by (apply Hpre; [reflexivity | reflexivity | exact HD]).
    destruct (sub_all_line _ match_device_re_eats s Hs) as [y1 [H1 ->]].
    rewrite (sub_all_prefix match_inode_re (eats_line_shrinks _ match_inode_re_eats) "I"
               match_inode_re_head) by (apply Hpre; [reflexivity | reflexivity | exact HI]).
    destruct (sub_all_line _ match_inode_re_eats y1 H1) as [y2 [H2 ->]].
    rewrite (sub_all_prefix match_links_re (eats_line_shrinks _ match_links_re_eats) "L"
               match_links_re_head) by (apply Hpre; [reflexivity | reflexivity | exact HL]).
    destruct (sub_all_line _ match_links_re_eats y2 H2) as [y3 [H3 ->]].
    exists y3. split; [exact H3|]. rewrite !string_app_assoc. reflexivity. }
  split.
  - unfold stat_filter.
    change (sub_anchored match_file_re ("Access: " ++ ?r)) with ("Access: " ++ r).
    destruct (Hsubs "Access: " eq_refl eq_refl eq_refl) as [y' [Hy' ->]].
    unfold sub_anchored at 2, match_access_time_re. rewrite strip_prefix_app. cbn [opt_bind].
    rewrite match_date_rest_ok, dsd_line by assumption. reflexivity.
  - unfold stat_filter.
    change (sub_anchored match_file_re ("Change: " ++ ?r)) with ("Change: " ++ r).
    destruct (Hsubs "Change: " eq_refl eq_refl eq_refl) as [y' [Hy' ->]].
    change (sub_anchored match_access_time_re ("Change: " ++ ?r)) with ("Change: " ++ r).
    unfold sub_anchored, match_change_time_re. rewrite strip_prefix_app. cbn [opt_bind].
    rewrite match_date_rest_ok, dsd_line by assumption. reflexivity.
Qed.

Lemma stat_filter_time_lines_witness :
  stat_filter ("Access: " ++ "2015" ++ "-" ++ "06" ++ "-" ++ "22"
               ++ " 10:00:00.000000000 +0200" ++ nl) = nl
  /\ stat_filter ("Change: " ++ "2015" ++ "-" ++ "06" ++ "-" ++ "22"
                  ++ " 10:00:00.000000000 +0200" ++ nl) = nl.
Proof.
  apply stat_filter_time_lines; reflexivity.
Defined.

Lemma string_app_nil_r (s : string) : s ++ "" = s.
Proof. induction s as [|c s IH]; simpl; [reflexivity | now rewrite IH]. Qed.

Lemma sub_all_match m s r :
  (forall s r, m s = Some r -> String.length r < String.length s) ->
  m s = Some r -> sub_all m s = sub_all m r.
Proof.
  intros Hs Hm. destruct s as [|c s].
  - apply Hs in Hm. simpl in Hm. lia.
  - rewrite (sub_all_cons m Hs), Hm. reflexivity.
Qed.

Lemma sub_all_id m (X : ascii) s :
  (forall s r, m s = Some r -> String.length r < String.length s) ->
  (forall c s, m (String c s) <> None -> c = X) ->
  all_chars (fun c => negb (Ascii.eqb c X)) s = true -> sub_all m s = s.
Proof.
  intros Hs Hh Ha. rewrite <- (string_app_nil_r s) at 1.
  rewrite (sub_all_prefix m Hs X Hh s "" Ha). apply string_app_nil_r.
Qed.

Lemma skip_many1_app p q r :
  q <> "" -> all_chars p q = true -> skip_while p r = r -> skip_many1 p (q ++ r) = Some r.
Proof.
  intros Hq Ha Hr. destruct q as [|c q]; [contradiction|].
  simpl in Ha |- *. apply andb_true_iff in Ha. destruct Ha as [Hc Ha]. rewrite Hc.
  rewrite skip_while_app by exact Ha. now rewrite Hr.
Qed.

Lemma spaces_avoid (X : ascii) pad :
  Ascii.eqb " " X = false -> all_chars (fun c => Ascii.eqb c " ") pad = true ->
  all_chars (fun c => negb (Ascii.eqb c X)) pad = true.
Proof.
  intros HX. apply all_chars_impl. intros c Hc. apply Ascii.eqb_eq in Hc. subst. now rewrite HX.
Qed.

Lemma match_device_re_ok h dn r :
  h <> "" -> all_chars is_hex_digit h = true -> dn <> "" -> all_chars is_digit dn = true ->
  match_device_re ("Device: " ++ h ++ "h/" ++ dn ++ "d" ++ r) = Some r.
Proof.
  intros Hh Hhx Hd Hdd. unfold match_device_re. rewrite strip_prefix_app. cbn [opt_bind].
  rewrite skip_many1_app by (assumption || reflexivity). cbn [opt_bind].
  rewrite strip_prefix_app. cbn [opt_bind].
  rewrite skip_many1_app by (assumption || reflexivity). cbn [opt_bind].
  apply strip_prefix_app.
Qed.

Lemma skip_while_pad p pad r :
  all_chars (fun c => Ascii.eqb c " ") pad = true -> p " "%char = false -> p "L"%char = false ->
  skip_while p (pad ++ "L" ++ r) = pad ++ "L" ++ r.
Proof.
  intros Hpad Hs HL. destruct pad as [|c pad].
  - simpl. now rewrite HL.
  - simpl in Hpad. apply andb_true_iff in Hpad. destruct Hpad as [Hc _].
    apply Ascii.eqb_eq in Hc. subst c. simpl. now rewrite Hs.
Qed.

(** The device line of GNU [stat] ("Device: %Dh/%dd\tInode: %-10i  Links:
    %h") is filtered down to the tab and the padding that follows the
    inode number: device, inode and link count are all removed. *)
Theorem stat_filter_device_line (h dn i pad k : string) :
  h <> "" -> all_chars is_hex_digit h = true ->
  dn <> "" -> all_chars is_digit dn = true ->
  i <> "" -> all_chars is_digit i = true ->
  all_chars (fun c => Ascii.eqb c " ") pad = true ->
  k <> "" -> all_chars is_digit k = true ->
  stat_filter ("Device: " ++ h ++ "h/" ++ dn ++ "d" ++ tab ++ "Inode: " ++ i ++ pad
               ++ "Links: " ++ k ++ nl)
  = tab ++ pad ++ nl.
Proof.
  intros Hh Hhx Hd Hdd Hi Hid Hpad Hk Hkd. unfold stat_filter.
  change (sub_anchored match_file_re ("Device: " ++ ?r)) with ("Device: " ++ r).
  pose proof (eats_line_shrinks _ match_device_re_eats) as SD.
  pose proof (eats_line_shrinks _ match_inode_re_eats) as SI.
  pose proof (eats_line_shrinks _ match_links_re_eats) as SL.
  rewrite (sub_all_match _ _ _ SD (match_device_re_ok h dn _ Hh Hhx Hd Hdd)).
  rewrite (sub_all_id _ "D" _ SD match_device_re_head)
    by (rewrite !all_chars_app, (digits_avoid "D" i), (digits_avoid "D" k),
          (spaces_avoid "D" pad); auto).
  rewrite (sub_all_prefix _ SI "I" match_inode_re_head tab) by reflexivity.
  rewrite (sub_all_match _ _ (pad ++ "Links: " ++ k ++ nl) SI).
  2:{ unfold match_inode_re. rewrite strip_prefix_app. cbn [opt_bind].
      apply skip_many1_app; [assumption | assumption | apply skip_while_pad; auto]. }
  rewrite (sub_all_id _ "I" _ SI match_inode_re_head)
    by (rewrite !all_chars_app, (digits_avoid "I" k), (spaces_avoid "I" pad); auto).
  rewrite <- (string_app_assoc tab pad).
  rewrite (sub_all_prefix _ SL "L" match_links_re_head (tab ++ pad))
    by (rewrite all_chars_app, (spaces_avoid "L" pad); auto).
  rewrite (sub_all_match _ _ nl SL).
  2:{ unfold match_links_re. rewrite strip_prefix_app. cbn [opt_bind].
      apply skip_many1_app; [assumption | assumption | reflexivity]. }
  change (sub_all match_links_re nl) with nl.
  rewrite string_app_assoc. reflexivity.
Qed.

Lemma stat_filter_device_line_witness :
  stat_filter ("Device: " ++ "801" ++ "h/" ++ "2049" ++ "d" ++ tab ++ "Inode: " ++ "1234"
               ++ "        " ++ "Links: " ++ "2" ++ nl)
  = tab ++ "        " ++ nl.
Proof.
  apply stat_filter_device_line; solve [discriminate | reflexivity].
Defined.



Lemma drop_self_succ (p : string) : drop (String.length p + 1) p = "".
Proof. induction p as [|c p IH]; [reflexivity | exact IH]. Qed.

Lemma drop_abs_path (p q : string) : good_rel q -> drop (String.length p + 1) (abs_path p q) = q.
Proof.
  intros [-> | [Hq _]]; unfold abs_path.
  - simpl. apply drop_self_succ.
  - apply String.eqb_neq in Hq. rewrite Hq. apply drop_app_slash.
Qed.

Lemma walk_all_entries (p : string) :
  p <> "" -> ends_with_slash p = false ->
  forall n q, names_okb n = true -> good_rel q ->
  concat (map (fun '(root, dirs, names) =>
                 let rel := drop (String.length p + 1) root in
                 (map (py_join rel) dirs ++ map (py_join rel) names)%list)
              (walk_node (abs_path p q) n))
  = all_entries q n.
Proof.
  intros Hp Hep n. induction n as [fnm | nm es IH] using fsnode_ind2; intros q Hok Hq.
  - reflexivity.
  - cbn [walk_node all_entries map concat].
    rewrite (drop_abs_path p q Hq). rewrite <- app_assoc. f_equal. f_equal.
    cbn [names_okb] in Hok. apply andb_true_iff in Hok. destruct Hok as [_ Hok].
    induction es as [|x es IHes]; [reflexivity|].
    apply andb_true_iff in Hok. destruct Hok as [Hx Hok].
    inversion IH as [|? ? Px IHtail]; subst.
    destruct x as [fnm | dnm des].
    + apply IHes; assumption.
    + rewrite map_app, concat_app. f_equal; [|apply IHes; assumption].
      assert (Hd : name_okb dnm = true)
        by (cbn [names_okb] in Hx; apply andb_true_iff in Hx; tauto).
      destruct (py_join_abs_path p q dnm Hp Hep Hq Hd) as [Hj Hg].
      rewrite Hj. apply Px; assumption.
Qed.

(** For a directory whose real path is not the root [/] (it has no
    trailing separator), [list_files] returns the paths, relative to that
    real path, of all its descendants, directories included, sorted. At the
    root the slice goes one character too far. *)
Theorem list_files_sorted_entries (denv : directory_env) (p : string) (n : fsnode) :
  tree_at denv (realpath denv p) = Some n -> realpath denv p <> "" ->
  ends_with_slash (realpath denv p) = false -> names_okb n = true ->
  Sorted (fun a b => String.leb a b = true) (list_files denv p)
  /\ Permutation (list_files denv p) (all_entries "" n).
Proof.
  intros Ht Hp Hep Hok. unfold list_files. split; [apply StringSort.Sorted_sort|].
  eapply Permutation_trans; [apply Permutation_sym, StringSort.Permuted_sort|].
  unfold os_walk. rewrite Ht.
  rewrite <- (walk_all_entries (realpath denv p) Hp Hep n "" Hok (or_introl eq_refl)).
  reflexivity.
Qed.

Lemma list_files_sorted_entries_witness :
  Sorted (fun a b => String.leb a b = true) (list_files example_denv "left")
  /\ Permutation (list_files example_denv "left")
       (all_entries "" (FsDir "left" [FsFile "b"; FsFile "a"; FsFile "only_left.txt";
                                      FsDir "sub" [FsFile "z"]; FsFile "c"])).
Proof.
  apply list_files_sorted_entries; [reflexivity | discriminate | reflexivity | reflexivity].
Defined.


(** Every member name of [DirectoryContainer.get_member_names] appears in
    the file listing of [list_files], for any path that is its own real
    path (the root [/] included): both slice the same [os.walk] roots at
    [len(path) + 1], and [root[len(path) + 1:]] of the top itself is the
    empty string that [get_member_names] uses for it. *)
Theorem get_member_names_in_list_files (denv : directory_env) (p : string) :
  realpath denv p = p -> incl (get_member_names denv p) (list_files denv p).
Proof.
  intros Hr x Hx. unfold list_files. rewrite Hr.
  apply (Permutation_in _ (StringSort.Permuted_sort _)).
  unfold get_member_names in Hx.
  apply in_concat in Hx. destruct Hx as (ys & Hys & Hx).
  apply in_map_iff in Hys. destruct Hys as ([[root dirs] files] & <- & Hin).
  apply in_concat.
  exists (map (py_join (drop (String.length p + 1) root)) dirs
          ++ map (py_join (drop (String.length p + 1) root)) files)%list.
  split.
  - apply in_map_iff. exists (root, dirs, files). split; [reflexivity | exact Hin].
  - apply in_or_app. right. cbv beta iota zeta in Hx.
    destruct (String.eqb root p) eqn:E; [|exact Hx].
    apply String.eqb_eq in E. subst root. rewrite drop_self_succ. exact Hx.
Qed.

Lemma get_member_names_in_list_files_witness :
  incl (get_member_names example_denv "left") (list_files example_denv "left").
Proof.
  apply get_member_names_in_list_files. reflexivity.
Defined.

Lemma walk_node_subdir (top r d : string) (es es' : list fsnode) :
  In (FsDir d es') es ->
  In (py_join top d, dirnames es', filenames es') (walk_node top (FsDir r es)).
Proof.
  intros H. cbn [walk_node]. right.
  induction es as [|e es IH]; [destruct H|].
  destruct H as [->|H].
  - cbn [walk_node]. apply in_or_app. left. left. reflexivity.
  - destruct e as [nm|nm es0]; [exact (IH H)|].
    apply in_or_app. right. exact (IH H).
Qed.

(** At the root [/], [list_files] slices every walk root at [len('/') + 1
    = 2], one character too far: a file [f] in a directory [d] just below
    the root is listed as [os.path.join(d[1:], f)], the directory name
    losing its first character. *)
Theorem list_files_root_slice (denv : directory_env) (p r d f : string)
    (es es' : list fsnode) :
  realpath denv p = "/" -> tree_at denv "/" = Some (FsDir r es) ->
  In (FsDir d es') es -> In (FsFile f) es' -> starts_with_slash d = false ->
  In (py_join (drop 1 d) f) (list_files denv p).
Proof.
  intros Hr Ht Hd Hf Hs. unfold list_files. rewrite Hr.
  apply (Permutation_in _ (StringSort.Permuted_sort _)).
  apply in_concat.
  exists (map (py_join (drop 1 d)) (dirnames es') ++ map (py_join (drop 1 d)) (filenames es'))%list.
  split.
  - apply in_map_iff. exists (py_join "/" d, dirnames es', filenames es').
    split.
    + replace (py_join "/" d) with ("/" ++ d) by (unfold py_join; rewrite Hs; reflexivity).
      reflexivity.
    + unfold os_walk. rewrite Ht. apply walk_node_subdir. exact Hd.
  - apply in_or_app. right. apply in_map. unfold filenames.
    apply in_map_iff. exists (FsFile f). split; [reflexivity|].
    apply filter_In. split; [exact Hf | reflexivity].
Qed.

Lemma list_files_root_slice_witness :
  In (py_join (drop 1 "usr") "x") (list_files example_denv_root "/")
  /\ list_files example_denv_root "/" = ["sr/x"; "usr"].
Proof.
  split.
  - apply (list_files_root_slice example_denv_root "/" "/" "usr" "x"
             [FsDir "usr" [FsFile "x"]] [FsFile "x"]);
      [reflexivity | reflexivity | left; reflexivity | left; reflexivity | reflexivity].
  - vm_compute. reflexivity.
Defined.

(** String order *)
Lemma ascii_compare_trans_lt (a b c : ascii) :
  Ascii.compare a b = Lt -> Ascii.compare b c = Lt -> Ascii.compare a c = Lt.
Proof.
  unfold Ascii.compare. rewrite !N.compare_lt_iff. lia.
Qed.

Lemma ascii_compare_refl (a : ascii) : Ascii.compare a a = Eq.
Proof. unfold Ascii.compare. apply N.compare_refl. Qed.

Lemma string_compare_le_trans (a b c : string) :
  String.compare a b <> Gt -> String.compare b c <> Gt -> String.compare a c <> Gt.
Proof.
  revert b c; induction a as [|x a IH]; intros b c Hab Hbc.
  - destruct c; simpl; discriminate.
  - destruct b as [|y b]; [simpl in Hab; contradiction|].
    destruct c as [|z c]; [simpl in Hbc; contradiction|].
    cbn [String.compare] in *.
    destruct (Ascii.compare x y) eqn:Exy; [| |contradiction];
    destruct (Ascii.compare y z) eqn:Eyz; try contradiction.
    + apply Ascii.compare_eq_iff in Exy, Eyz. subst. rewrite ascii_compare_refl. now apply (IH b).
    + apply Ascii.compare_eq_iff in Exy. subst. now rewrite Eyz.
    + apply Ascii.compare_eq_iff in Eyz. subst. now rewrite Exy.
    + now rewrite (ascii_compare_trans_lt x y z Exy Eyz).
Qed.

Lemma string_leb_trans (a b c : string) :
  String.leb a b = true -> String.leb b c = true -> String.leb a c = true.
Proof.
  unfold String.leb. intros H1 H2.
  destruct (String.compare a c) eqn:E; [reflexivity | reflexivity|].
  exfalso. apply (string_compare_le_trans a b c); [| |exact E];
    [destruct (String.compare a b) | destruct (String.compare b c)]; congruence.
Qed.

Lemma sorted_perm_unique (l1 l2 : list string) :
  Sorted (fun a b => String.leb a b = true) l1 -> Sorted (fun a b => String.leb a b = true) l2 ->
  Permutation l1 l2 -> l1 = l2.
Proof.
  intros S1 S2 P.
  apply Sorted_StronglySorted in S1, S2; try exact string_leb_trans.
  revert l2 S2 P. induction S1 as [|a l1 S1 IH H1]; intros l2 S2 P.
  - symmetry. now apply Permutation_nil.
  - destruct S2 as [|b l2 S2 H2]; [apply Permutation_sym, Permutation_nil in P; discriminate|].
    assert (Eab : a = b).
    { destruct (String.eqb_spec a b) as [|Hne]; [assumption|].
      assert (Ha : In a (b :: l2)) by (apply (Permutation_in _ P); now left).
      assert (Hb : In b (a :: l1)) by (apply (Permutation_in _ (Permutation_sym P)); now left).
      destruct Ha as [Ha|Ha]; [congruence|]. destruct Hb as [Hb|Hb]; [congruence|].
      apply String.leb_antisym.
      - eapply Forall_forall in H1; [exact H1 | exact Hb].
      - eapply Forall_forall in H2; [exact H2 | exact Ha]. }
    subst b. f_equal. apply IH; [exact S2|]. eapply Permutation_cons_inv. exact P.
Qed.

(** The file-list step of [FilesystemDirectory.compare] ignores the order
    in which directories list their entries: two trees with the same
    relative paths give the same [list_files] and no listing difference. *)
Theorem listing_diff_ignores_order (env : binary_env) (denv : directory_env)
    (p1 p2 : string) (n1 n2 : fsnode) :
  tree_at denv (realpath denv p1) = Some n1 -> realpath denv p1 <> "" ->
  ends_with_slash (realpath denv p1) = false -> names_okb n1 = true ->
  tree_at denv (realpath denv p2) = Some n2 -> realpath denv p2 <> "" ->
  ends_with_slash (realpath denv p2) = false -> names_okb n2 = true ->
  Permutation (all_entries "" n1) (all_entries "" n2) ->
  (forall t, diff_texts env t t = Ok None) ->
  list_files denv p1 = list_files denv p2 /\ listing_diff env denv p1 p2 = Ok None.
Proof.
  intros T1 R1 E1 O1 T2 R2 E2 O2 P Hd.
  destruct (list_files_sorted_entries denv p1 n1 T1 R1 E1 O1) as [S1 P1].
  destruct (list_files_sorted_entries denv p2 n2 T2 R2 E2 O2) as [S2 P2].
  assert (Eq : list_files denv p1 = list_files denv p2).
  { apply sorted_perm_unique; [exact S1 | exact S2|].
    eapply Permutation_trans; [exact P1|]. eapply Permutation_trans; [exact P|].
    now apply Permutation_sym. }
  split; [exact Eq|]. unfold listing_diff, from_text. rewrite Eq, Hd. reflexivity.
Qed.

Lemma listing_diff_ignores_order_witness :
  list_files example_denv_reordered "x" = list_files example_denv_reordered "y"
  /\ listing_diff (example_env (Ok [])) example_denv_reordered "x" "y" = Ok None.
Proof.
  apply (listing_diff_ignores_order (example_env (Ok [])) example_denv_reordered "x" "y"
           (FsDir "x" [FsFile "b"; FsFile "a"; FsDir "d" [FsFile "c"]])
           (FsDir "y" [FsDir "d" [FsFile "c"]; FsFile "a"; FsFile "b"]));
    [reflexivity | discriminate | reflexivity | reflexivity
    | reflexivity | discriminate | reflexivity | reflexivity | |].
  - vm_compute. apply perm_skip, perm_swap.
  - intros t. cbn [diff_texts example_env]. rewrite String.eqb_refl. reflexivity.
Defined.





